(** * terratools.plot: gridding and spectrum slicing

    A shallow embedding of [src/terratools/plot.py].  Python numbers are
    read as exact rationals ([Q]); a NumPy float that may be NaN is a
    [cell].  Calls into NumPy, SciPy, matplotlib and cartopy are recorded
    in a trace, in program order, so that "what happened before the raise"
    is a statement about a list of events. *)

From Stdlib Require Import String DecimalString.
From Stdlib Require Import ZArith QArith Qround Bool Lia List.
Import ListNotations.

Local Open Scope string_scope.
Local Open Scope list_scope.
Local Open Scope Q_scope.

(** ** Python values *)

(** A piece of an f-string: literal text, or a number still to be
    formatted by Python. *)
Inductive frag : Type :=
| Lit (s : string)
| NumF (q : Q).

Definition message := list frag.

Inductive exn : Type :=
| ValueError (m : message)
| ImportError (m : message)
| TypeError (m : message)
| AttributeError (m : message).

(** A NumPy float: a number or NaN. *)
Inductive cell : Type :=
| Num (q : Q)
| NaN.

(** A 2-D array as its list of rows.  (An array with no row carries no
    column count.) *)
Definition array2 (A : Type) := list (list A).
Definition grid := array2 cell.

Definition shape {A} (a : array2 A) : nat * nat :=
  (length a, length (hd [] a)).

Definition size {A} (a : array2 A) : nat :=
  fold_right (fun r n => (length r + n)%nat) 0%nat a.

Definition kwargs := list (string * string).

(** ** Effects: the library calls a run makes, in order *)

Inductive event : Type :=
| stderr_write (s : string)
| plt_subplots (kw : kwargs)
| np_arange_call (start stop step : Q)
| np_meshgrid_call (xs ys : list Q)
| griddata_call
| binned_statistic_2d_call
| np_transpose_call
| np_flip_call
| ccrs_PlateCarree
| ax_imshow (g : grid) (extent : list Q)
| ax_set_title (s : string)
| ax_set_xlabel (s : string)
| colorbar_call (label : string)
| ax_coastlines
| np_log_call (a : array2 Q)
| np_min_call
| np_max_call
| np_linspace_call
| ax_contourf (xs : list Z) (ys : list Q)
| ax_set_ylabel (s : string)
| ax_set_xlim (lo hi : Z)
| invert_yaxis
| fig_colorbar
| cbar_set_label (s : string)
| plt_savefig (path : string).

Inductive result (A : Type) : Type :=
| Ok (a : A)
| Raise (e : exn).
Arguments Ok {A} a.
Arguments Raise {A} e.

(** A run: its trace and how it ended. *)
Definition M (A : Type) : Type := list event * result A.

Definition ret {A} (a : A) : M A := ([], Ok a).
Definition raise {A} (e : exn) : M A := ([], Raise e).
Definition emit (e : event) : M unit := ([e], Ok tt).

Definition bind {A B} (m : M A) (f : A -> M B) : M B :=
  match m with
  | (t, Ok a) => let (t', r) := f a in (t ++ t', r)
  | (t, Raise e) => (t, Raise e)
  end.

Definition lift {A} (r : result A) : M A := ([], r).

Notation "x <- m ;; k" := (bind m (fun x => k))
  (at level 61, m at next level, right associativity).
Notation "m ;;; k" := (bind m (fun _ => k))
  (at level 61, right associativity).

Definition trace {A} (m : M A) : list event := fst m.
Definition outcome {A} (m : M A) : result A := snd m.

(** ** Module state set at import time (lines 6-13) *)

Record globals : Type := {
  _CARTOPY_INSTALLED : bool;
  _CARTOPY_NOT_INSTALLED_EXCEPTION : option exn
}.

(** What [import cartopy.crs as ccrs] did. *)
Inductive import_result : Type :=
| Imported
| ImportFailed (e : exn).

(** The [try]/[except ImportError] at the top of the module; an exception
    of another class is not caught and the module does not load. *)
Definition load_module (imp : import_result) : result globals :=
  match imp with
  | Imported =>
      Ok {| _CARTOPY_INSTALLED := true;
            _CARTOPY_NOT_INSTALLED_EXCEPTION := None |}
  | ImportFailed (ImportError m) =>
      Ok {| _CARTOPY_INSTALLED := false;
            _CARTOPY_NOT_INSTALLED_EXCEPTION := Some (ImportError m) |}
  | ImportFailed e => Raise e
  end.

(** ** NumPy and SciPy functions used by the module *)

Definition Qlt_bool (x y : Q) : bool := negb (Qle_bool y x).

(** [np.arange(start, stop, step)]: [ceil((stop - start)/step)] values
    [start + i*step], the stop excluded. *)
Definition np_arange (start stop step : Q) : list Q :=
  map (fun i => start + inject_Z (Z.of_nat i) * step)
      (seq 0 (Z.to_nat (Qceiling ((stop - start) / step)))).

(** [np.meshgrid(xs, ys)]: two arrays of shape (len ys, len xs). *)
Definition np_meshgrid (xs ys : list Q) : array2 Q * array2 Q :=
  (map (fun _ => xs) ys, map (fun y => map (fun _ => y) xs) ys).

Definition zip2 (g h : array2 Q) : array2 (Q * Q) :=
  map (fun rr => combine (fst rr) (snd rr)) (combine g h).

Definition dist2 (p q : Q * Q) : Q :=
  (fst p - fst q) * (fst p - fst q) + (snd p - snd q) * (snd p - snd q).

(** The value of the sample closest to [p]; of two samples at the same
    distance the earlier one is kept. *)
Fixpoint nearest_from (p : Q * Q) (best : Q * Q * Q)
    (rest : list (Q * Q * Q)) : Q :=
  match rest with
  | [] => snd best
  | s :: rest' =>
      if Qlt_bool (dist2 p (fst s)) (dist2 p (fst best))
      then nearest_from p s rest'
      else nearest_from p best rest'
  end.

(** Without any sample there is no neighbour: recent SciPy fills the
    cell with NaN. *)
Definition nearest (samples : list (Q * Q * Q)) (p : Q * Q) : cell :=
  match samples with
  | [] => NaN
  | s :: rest => Num (nearest_from p s rest)
  end.

(** NumPy broadcasting of the two coordinate sequences to one list of
    points: equal lengths, or one of them of length 1. *)
Definition broadcast2 (x y : list Q) : option (list (Q * Q)) :=
  if (length x =? length y)%nat then Some (combine x y)
  else if (length x =? 1)%nat then Some (map (fun b => (hd 0 x, b)) y)
  else if (length y =? 1)%nat then Some (map (fun a => (a, hd 0 y)) x)
  else None.

(** [scipy.interpolate.griddata((x, y), values, (xi, yi), method="nearest")].
    The result has the shape of [xi]. *)
Definition griddata_nearest (x y values : list Q) (xi yi : array2 Q)
  : result grid :=
  match broadcast2 x y with
  | None =>
      Raise (ValueError [Lit "shape mismatch: objects cannot be broadcast to a single shape"])
  | Some points =>
      if negb (length values =? length points)%nat then
        Raise (ValueError [Lit "different number of values and points"])
      else
        Ok (map (map (nearest (combine points values))) (zip2 xi yi))
  end.

(** [np.digitize(v, edges)] for increasing edges: how many edges are
    [<= v]. *)
Definition np_digitize (edges : list Q) (v : Q) : nat :=
  length (filter (fun e => Qle_bool e v) edges).

(** The bin number SciPy gives a coordinate: [np.digitize], with a value
    on the last edge moved into the last bin.  Bin 0 and bin [len edges]
    collect the outliers. *)
Definition bin_number (edges : list Q) (v : Q) : nat :=
  match rev edges with
  | [] => np_digitize edges v
  | rightmost :: _ =>
      if Qeq_bool v rightmost then (np_digitize edges v - 1)%nat
      else np_digitize edges v
  end.

Definition in_bin (xe ye : list Q) (i j : nat) (s : Q * Q * Q) : bool :=
  ((bin_number xe (fst (fst s)) =? S i)%nat
   && (bin_number ye (snd (fst s)) =? S j)%nat)%bool.

Definition Qsum (l : list Q) : Q := fold_right Qplus 0 l.

(** The "mean" statistic of one bin: NaN when the bin is empty. *)
Definition mean_cell (vs : list Q) : cell :=
  match vs with
  | [] => NaN
  | _ => Num (Qsum vs / inject_Z (Z.of_nat (length vs)))
  end.

Fixpoint diffs (l : list Q) : list Q :=
  match l with
  | a :: (b :: _) as t => (b - a) :: diffs t
  | _ => []
  end.

(** The check SciPy makes on the edges of one dimension: the smallest
    difference of adjacent edges is taken (NumPy raises when there is no
    difference to take it from) and must not be 0. *)
Definition edges_error (edges : list Q) : option exn :=
  if (length edges <? 2)%nat then
    Some (ValueError [Lit "zero-size array to reduction operation minimum which has no identity"])
  else if existsb (fun d => Qeq_bool d 0) (diffs edges) then
    Some (ValueError [Lit "The smallest edge difference is numerically 0."])
  else None.

(** [scipy.stats.binned_statistic_2d(x, y, values, bins=[xe, ye])] with the
    default statistic "mean", for increasing edges (as [np.arange] with a
    positive step gives them): one cell per pair of adjacent edges, so the
    result has shape (len xe - 1, len ye - 1). *)
Definition binned_statistic_2d (x y values xe ye : list Q) : result grid :=
  if negb (length x =? length y)%nat then
    Raise (ValueError [Lit "setting an array element with a sequence."])
  else if negb (length values =? length x)%nat then
    Raise (AttributeError [Lit "The number of `values` elements must match the length of each `sample` dimension."])
  else if (length x =? 0)%nat then
    Raise (ValueError [Lit "zero-size array to reduction operation minimum which has no identity"])
  else
    match edges_error xe, edges_error ye with
    | Some e, _ => Raise e
    | None, Some e => Raise e
    | None, None =>
        let samples := combine (combine x y) values in
        Ok (map (fun i =>
              map (fun j =>
                     mean_cell (map snd (filter (in_bin xe ye i j) samples)))
                  (seq 0 (length ye - 1)))
              (seq 0 (length xe - 1)))
    end.

(** [np.transpose] of a 2-D array. *)
Definition np_transpose (g : grid) : grid :=
  map (fun j => map (fun r => nth j r NaN) g) (seq 0 (length (hd [] g))).

(** [np.flip(g, axis=0)]: the rows in reverse order. *)
Definition np_flip0 (g : grid) : grid := rev g.

(** ** layer_grid (lines 23-131) *)

(** Python's [max(a, b)]. *)
Definition py_max (a b : Q) : Q := if Qlt_bool a b then b else a.

(** [int(x)]: truncation towards zero. *)
Definition py_int (x : Q) : Z := Z.quot (Qnum x) (Zpos (Qden x)).

Definition str_of_Z (z : Z) : string := NilZero.string_of_int (Z.to_int z).

(** f"{label}" for an optional string. *)
Definition fmt_opt (o : option string) : string :=
  match o with Some s => s | None => "None" end.

(** [extent[i]] once the length has been checked. *)
Definition item (extent : list Q) (i : nat) : Q := nth i extent 0.

(** The pair (fig, ax) handed back: what has been drawn on the axes. *)
Record map_axes : Type := {
  ax_image : grid;
  ax_extent : list Q;
  ax_title : string;
  ax_xlabel : string;
  cbar_label : string;
  has_coastlines : bool
}.

Definition default_extent : list Q := [-180; 180; -90; 90].

Definition layer_grid (g : globals)
    (lon lat : list Q) (radius : Q) (values : list Q)
    (delta : option Q) (extent : list Q) (label : option string)
    (method : string) (coastlines : bool) (subplots_kwargs : kwargs)
  : M map_axes :=
  (if negb (_CARTOPY_INSTALLED g) then
     emit (stderr_write "layer_grid require cartopy to be installed") ;;;
     match _CARTOPY_NOT_INSTALLED_EXCEPTION g with
     | Some e => raise e
     | None => raise (TypeError [Lit "exceptions must derive from BaseException"])
     end
   else ret tt) ;;;
  emit (plt_subplots (("projection", "EqualEarth") :: subplots_kwargs)) ;;;
  (if negb (length extent =? 4)%nat then
     raise (ValueError [Lit "extent must contain four values"])
   else if Qle_bool (item extent 1) (item extent 0) then
     raise (ValueError [Lit "maximum longitude must be more than minimum; have";
                        Lit "min = "; NumF (item extent 0);
                        Lit " and max = "; NumF (item extent 1)])
   else if Qle_bool (item extent 3) (item extent 2) then
     raise (ValueError [Lit "maximum latitude must be more than minimum; have";
                        Lit "min = "; NumF (item extent 2);
                        Lit " and max = "; NumF (item extent 3)])
   else ret tt) ;;;
  let minlon := item extent 0 in
  let maxlon := item extent 1 in
  let minlat := item extent 2 in
  let maxlat := item extent 3 in
  delta <- match delta with
           | None =>
               let lonrange := maxlon - minlon in
               let latrange := maxlat - minlat in
               let max_range := py_max lonrange latrange in
               ret (max_range / 200)
           | Some d =>
               if Qle_bool d 0 then
                 raise (ValueError [Lit "delta must be more than 0"])
               else ret d
           end ;;
  emit (np_arange_call minlon maxlon delta) ;;;
  let grid_lons := np_arange minlon maxlon delta in
  emit (np_arange_call minlat maxlat delta) ;;;
  let grid_lats := np_arange minlat maxlat delta in
  emit (np_meshgrid_call grid_lons grid_lats) ;;;
  let (grid_lon, grid_lat) := np_meshgrid grid_lons grid_lats in
  grid <- (if (method =? "nearest")%string then
             emit griddata_call ;;;
             lift (griddata_nearest lon lat values grid_lon grid_lat)
           else if (method =? "mean")%string then
             emit binned_statistic_2d_call ;;;
             grid <- lift (binned_statistic_2d lon lat values grid_lons grid_lats) ;;
             emit np_transpose_call ;;;
             ret (np_transpose grid)
           else
             raise (ValueError [Lit ("unsupported method '" ++ method ++ "'")%string])) ;;
  emit np_flip_call ;;;
  let grid := np_flip0 grid in
  emit ccrs_PlateCarree ;;;
  emit (ax_imshow grid extent) ;;;
  emit (ax_set_title ("Radius " ++ str_of_Z (py_int radius) ++ " km")%string) ;;;
  emit (ax_set_xlabel (fmt_opt label)) ;;;
  let cbar := match label with Some s => s | None => "" end in
  emit (colorbar_call cbar) ;;;
  (if coastlines then emit ax_coastlines else ret tt) ;;;
  ret {| ax_image := grid;
         ax_extent := extent;
         ax_title := ("Radius " ++ str_of_Z (py_int radius) ++ " km")%string;
         ax_xlabel := fmt_opt label;
         cbar_label := cbar;
         has_coastlines := coastlines |}.

(** ** spectral_heterogeneity (lines 134-191)

    The module state [g] is in scope of the function, as of every function
    of the module; its body never reads it. *)

(** A Python slice bound: a negative index counts from the end, and the
    bound is clamped to the sequence. *)
Definition slice_bound (len : nat) (i : Z) : nat :=
  if (i <? 0)%Z then Z.to_nat (Z.max 0 (i + Z.of_nat len))
  else Nat.min (Z.to_nat i) len.

(** [l[start:stop]]. *)
Definition py_slice {A} (start stop : Z) (l : list A) : list A :=
  let a := slice_bound (length l) start in
  let b := slice_bound (length l) stop in
  firstn (b - a) (skipn a l).

(** [a[r0:r1, c0:c1]] on a 2-D array. *)
Definition slice2 {A} (r0 r1 c0 c1 : Z) (a : array2 A) : array2 A :=
  map (py_slice c0 c1) (py_slice r0 r1 a).

(** The natural logarithm of a number, kept symbolic: [Ln q] stands for
    ln q with q > 0; NumPy gives -inf at 0 and NaN below. *)
Inductive logval : Type :=
| Ln (q : Q)
| NegInf
| LogNaN.

Definition np_log1 (q : Q) : logval :=
  if Qlt_bool 0 q then Ln q
  else if Qeq_bool q 0 then NegInf
  else LogNaN.

Definition np_log (a : array2 Q) : array2 logval := map (map np_log1) a.

Definition lv_min (a b : logval) : logval :=
  match a, b with
  | LogNaN, _ | _, LogNaN => LogNaN
  | NegInf, _ | _, NegInf => NegInf
  | Ln x, Ln y => if Qle_bool x y then Ln x else Ln y
  end.

Definition lv_max (a b : logval) : logval :=
  match a, b with
  | LogNaN, _ | _, LogNaN => LogNaN
  | NegInf, v | v, NegInf => v
  | Ln x, Ln y => if Qle_bool x y then Ln y else Ln x
  end.

(** [np.min] and [np.max] over all the elements; NumPy raises on an array
    without elements. *)
Definition np_reduce (name : string) (f : logval -> logval -> logval)
    (a : array2 logval) : result logval :=
  match concat a with
  | [] => Raise (ValueError
            [Lit ("zero-size array to reduction operation " ++ name
                  ++ " which has no identity")%string])
  | v :: vs => Ok (fold_left f vs v)
  end.

Definition np_min := np_reduce "minimum" lv_min.
Definition np_max := np_reduce "maximum" lv_max.

(** [np.arange(a, b)] on integers. *)
Definition np_arange_Z (a b : Z) : list Z :=
  map (fun i => (a + Z.of_nat i)%Z) (seq 0 (Z.to_nat (b - a))).

Definition newline : string := String (Ascii.ascii_of_nat 10) "".

Record spectrum_axes : Type := {
  sp_x : list Z;
  sp_y : list Q;
  sp_z : array2 logval;
  sp_levels : logval * logval * nat;
  sp_xlim : Z * Z;
  sp_title : string
}.

Definition spectral_heterogeneity (g : globals)
    (indat : array2 Q) (title : option string) (depths : list Q)
    (lmin lmax : Z) (saveplot : bool) (savepath : option string)
    (lyrmin lyrmax : Z) (subplots_kwargs : kwargs)
  : M spectrum_axes :=
  emit (np_log_call (slice2 lyrmin lyrmax lmin (lmax + 1) indat)) ;;;
  let logged := np_log (slice2 lyrmin lyrmax lmin (lmax + 1) indat) in
  let deps := py_slice lyrmin lyrmax depths in
  emit (plt_subplots (("figsize", "(8, 6)") :: subplots_kwargs)) ;;;
  emit np_min_call ;;;
  plotmin <- lift (np_min logged) ;;
  emit np_max_call ;;;
  plotmax <- lift (np_max logged) ;;
  emit np_linspace_call ;;;
  let levels := (plotmin, plotmax, 10%nat) in
  emit (ax_contourf (np_arange_Z lmin (lmax + 1)) deps) ;;;
  emit (ax_set_ylabel "Depth (km)") ;;;
  emit (ax_set_xlabel "L") ;;;
  emit (ax_set_xlim (lmin - 1) (lmax + 1)) ;;;
  let shown :=
    match title with
    | None => "Spherical Harmonic Power Spectrum"
    | Some t => ("Spherical Harmonic Power Spectrum " ++ newline
                 ++ " for " ++ t ++ " field")%string
    end in
  emit (ax_set_title shown) ;;;
  emit invert_yaxis ;;;
  emit fig_colorbar ;;;
  emit (cbar_set_label "ln(Power)") ;;;
  (if saveplot then
     let savepath := match savepath with None => "." | Some p => p end in
     let title := match title with None => "" | Some t => t end in
     emit (plt_savefig (savepath ++ "/powers_" ++ title ++ ".pdf")%string)
   else ret tt) ;;;
  ret {| sp_x := np_arange_Z lmin (lmax + 1);
         sp_y := deps;
         sp_z := logged;
         sp_levels := levels;
         sp_xlim := ((lmin - 1)%Z, (lmax + 1)%Z);
         sp_title := shown |}.

(** * Vocabulary of the statements *)

(** The spacing a call works with: the one given, or the default of
    lines 84-87. *)
Definition spacing (extent : list Q) (delta : option Q) : Q :=
  match delta with
  | Some d => d
  | None => py_max (item extent 1 - item extent 0)
                   (item extent 3 - item extent 2) / 200
  end.

(** Number of grid lines [np.arange] puts on an axis. *)
Definition steps (lo hi d : Q) : nat := Z.to_nat (Qceiling ((hi - lo) / d)).

(** Every row of [a] has [n] elements. *)
Definition rect {A} (n : nat) (a : array2 A) : Prop :=
  Forall (fun r => length r = n) a.

(** The values of the samples that fall in bin [(i, j)] of the edges
    [xe], [ye]. *)
Definition bin_values (x y values xe ye : list Q) (i j : nat) : list Q :=
  map snd (filter (in_bin xe ye i j) (combine (combine x y) values)).

(** What [binned_statistic_2d] returns when its own checks pass. *)
Definition binned_means (x y values xe ye : list Q) : grid :=
  map (fun i => map (fun j => mean_cell (bin_values x y values xe ye i j))
                    (seq 0 (length ye - 1)))
      (seq 0 (length xe - 1)).

(** Element [(i, j)] of a 2-D array, if there is one. *)
Definition get2 {A} (a : array2 A) (i j : nat) : option A :=
  match nth_error a i with
  | Some r => nth_error r j
  | None => None
  end.

(** Two cells hold the same number (or are both NaN). *)
Definition cell_eq (c c' : cell) : Prop :=
  match c, c' with
  | Num q, Num q' => q == q'
  | NaN, NaN => True
  | _, _ => False
  end.

(** Grid line number [k] of an axis that starts at [lo] with spacing [d]. *)
Definition line (lo d : Q) (k : nat) : Q := lo + inject_Z (Z.of_nat k) * d.

(** [v] is the "mean" statistic of the values [vs] of one bin. *)
Definition cell_is_bin_mean (v : cell) (vs : list Q) : Prop :=
  (vs = [] -> v = NaN)
  /\ (forall s, vs = [s] -> cell_eq v (Num s))
  /\ (vs <> [] -> v = Num (Qsum vs / inject_Z (Z.of_nat (length vs)))).

(** The grid lines layer_grid lays out on each axis (lines 91-92). *)
Definition lon_lines (extent : list Q) (delta : option Q) : list Q :=
  np_arange (item extent 0) (item extent 1) (spacing extent delta).

Definition lat_lines (extent : list Q) (delta : option Q) : list Q :=
  np_arange (item extent 2) (item extent 3) (spacing extent delta).

(** A sample spectrum of shape (r, c): 1, 2, 3, ... row by row. *)
Definition ramp (r c : nat) : array2 Q :=
  map (fun i => map (fun j => inject_Z (Z.of_nat (1 + i * c + j))) (seq 0 c))
      (seq 0 r).

(** The module state when cartopy is there, and when its import failed
    with [e]. *)
Definition installed : globals :=
  {| _CARTOPY_INSTALLED := true; _CARTOPY_NOT_INSTALLED_EXCEPTION := None |}.

Definition missing (m : message) : globals :=
  {| _CARTOPY_INSTALLED := false;
     _CARTOPY_NOT_INSTALLED_EXCEPTION := Some (ImportError m) |}.

(** The calls the extent and spacing checks of lines 68-89 reject. *)
Definition bad_extent (extent : list Q) : Prop :=
  length extent <> 4%nat
  \/ item extent 1 <= item extent 0
  \/ item extent 3 <= item extent 2.

Definition bad_delta (delta : option Q) : Prop :=
  exists d, delta = Some d /\ d <= 0.

(** [s] is a sample of [samples] at least as close to the point [p] as
    every sample. *)
Definition closest (samples : list (Q * Q * Q)) (p : Q * Q)
    (s : Q * Q * Q) : Prop :=
  In s samples
  /\ forall s', In s' samples -> dist2 p (fst s) <= dist2 p (fst s').

(** The events that put something on the axes of the map. *)
Definition is_drawing (ev : event) : bool :=
  match ev with
  | ax_imshow _ _ | ax_set_title _ | ax_set_xlabel _ | colorbar_call _
  | ax_coastlines => true
  | _ => false
  end.

(** What a run of layer_grid does once it has the grid [gr]
    (lines 107-129). *)
Definition rendering (gr : grid) (extent : list Q) (radius : Q)
    (label : option string) (coastlines : bool) : list event :=
  [np_flip_call; ccrs_PlateCarree;
   ax_imshow (np_flip0 gr) extent;
   ax_set_title ("Radius " ++ str_of_Z (py_int radius) ++ " km")%string;
   ax_set_xlabel (fmt_opt label);
   colorbar_call (match label with Some s => s | None => ""%string end)]
  ++ (if coastlines then [ax_coastlines] else []).

(** The file spectral_heterogeneity saves to (lines 183-189). *)
Definition spectrum_path (savepath title : option string) : string :=
  (match savepath with None => "." | Some p => p end
   ++ "/powers_"
   ++ match title with None => "" | Some t => t end
   ++ ".pdf")%string.

(** The title spectral_heterogeneity puts on the axes (lines 174-177). *)
Definition spectrum_title (title : option string) : string :=
  match title with
  | None => "Spherical Harmonic Power Spectrum"
  | Some t => ("Spherical Harmonic Power Spectrum " ++ newline
               ++ " for " ++ t ++ " field")%string
  end.


(** * Properties *)

(** ** Rationals *)

Lemma Qle_bool_false (x y : Q) : x < y -> Qle_bool y x = false.
Proof.
  intro H. destruct (Qle_bool y x) eqn:E; [|reflexivity].
  apply Qle_bool_iff in E. exfalso. exact (Qlt_not_le _ _ H E).
Qed.

Lemma Qle_bool_true (x y : Q) : x <= y -> Qle_bool x y = true.
Proof. intro H. now apply Qle_bool_iff. Qed.

Lemma py_max_pos (a b : Q) : 0 < a -> 0 < py_max a b.
Proof.
  intro Ha. unfold py_max, Qlt_bool.
  destruct (Qle_bool b a) eqn:E; simpl; [exact Ha|].
  destruct (Qlt_le_dec a b) as [L|L].
  - eapply Qlt_trans; eassumption.
  - apply Qle_bool_iff in L. congruence.
Qed.

Lemma np_arange_length lo hi d : length (np_arange lo hi d) = steps lo hi d.
Proof. unfold np_arange, steps. now rewrite length_map, length_seq. Qed.

Lemma steps_pos lo hi d : lo < hi -> 0 < d -> (1 <= steps lo hi d)%nat.
Proof.
  intros Hlh Hd. unfold steps.
  assert (H : 0 < (hi - lo) / d).
  { apply Qlt_shift_div_l; [exact Hd|]. rewrite Qmult_0_l.
    unfold Qminus. rewrite <- (Qplus_opp_r lo).
    apply Qplus_lt_l. exact Hlh. }
  pose proof (Qle_ceiling ((hi - lo) / d)) as Hc.
  assert (Hz : 0 < inject_Z (Qceiling ((hi - lo) / d)))
    by (eapply Qlt_le_trans; eassumption).
  change 0 with (inject_Z 0) in Hz. rewrite <- Zlt_Qlt in Hz. lia.
Qed.

(** ** Runs *)

Lemma outcome_bind {A B} (m : M A) (f : A -> M B) :
  outcome (bind m f) =
  match outcome m with Ok a => outcome (f a) | Raise e => Raise e end.
Proof.
  destruct m as [t [a|e]]; simpl; [|reflexivity].
  now destruct (f a).
Qed.

Lemma trace_bind {A B} (m : M A) (f : A -> M B) :
  trace (bind m f) =
  trace m ++ match outcome m with Ok a => trace (f a) | Raise _ => [] end.
Proof.
  destruct m as [t [a|e]]; simpl; [|now rewrite app_nil_r].
  now destruct (f a).
Qed.

Lemma run_eta {A} (m : M A) : m = (trace m, outcome m).
Proof. now destruct m. Qed.

Ltac run :=
  repeat (rewrite ?outcome_bind, ?trace_bind;
          cbn [outcome trace emit ret raise lift fst snd app negb]).

(** ** Runs of layer_grid on a valid extent and spacing *)

Section ValidCall.
Variable g : globals.
Hypothesis Hinst : _CARTOPY_INSTALLED g = true.
Variables (lon lat values : list Q) (radius : Q).
Variables (minlon maxlon minlat maxlat : Q).
Variable delta : option Q.
Variables (label : option string) (coastlines : bool) (kw : kwargs).
Hypothesis Hlon : minlon < maxlon.
Hypothesis Hlat : minlat < maxlat.
Let extent := [minlon; maxlon; minlat; maxlat].
Hypothesis Hdelta : 0 < spacing extent delta.
Let d := spacing extent delta.
Let grid_lons := np_arange minlon maxlon d.
Let grid_lats := np_arange minlat maxlat d.

Let drawn (gr : grid) : map_axes :=
  {| ax_image := np_flip0 gr;
     ax_extent := extent;
     ax_title := ("Radius " ++ str_of_Z (py_int radius) ++ " km")%string;
     ax_xlabel := fmt_opt label;
     cbar_label := match label with Some s => s | None => ""%string end;
     has_coastlines := coastlines |}.

Lemma valid_outcome method :
  outcome (layer_grid g lon lat radius values delta extent label method
                      coastlines kw) =
  if (method =? "nearest")%string then
    match griddata_nearest lon lat values
            (fst (np_meshgrid grid_lons grid_lats))
            (snd (np_meshgrid grid_lons grid_lats)) with
    | Ok gr => Ok (drawn gr)
    | Raise e => Raise e
    end
  else if (method =? "mean")%string then
    match binned_statistic_2d lon lat values grid_lons grid_lats with
    | Ok gr => Ok (drawn (np_transpose gr))
    | Raise e => Raise e
    end
  else Raise (ValueError [Lit ("unsupported method '" ++ method ++ "'")%string]).
Proof.
  unfold layer_grid. rewrite Hinst.
  cbn [negb length Nat.eqb extent item nth].
  rewrite (Qle_bool_false _ _ Hlon), (Qle_bool_false _ _ Hlat).
  run.
  assert (E : outcome
            match delta with
            | Some d0 =>
                if Qle_bool d0 0
                then raise (ValueError [Lit "delta must be more than 0"])
                else ret d0
            | None => ret (py_max (maxlon - minlon) (maxlat - minlat) / 200)
            end = Ok d).
  { subst d. unfold spacing in *. destruct delta as [d0|]; [|reflexivity].
    now rewrite (Qle_bool_false _ _ Hdelta). }
  rewrite E. run. fold grid_lons grid_lats.
  unfold np_meshgrid. run.
  destruct (method =? "nearest")%string.
  - run. destruct griddata_nearest; run; [|reflexivity].
    destruct coastlines; reflexivity.
  - destruct (method =? "mean")%string; run; [|reflexivity].
    destruct binned_statistic_2d; run; [|reflexivity].
    destruct coastlines; reflexivity.
Qed.

Lemma valid_trace_prefix method :
  exists rest,
    trace (layer_grid g lon lat radius values delta extent label method
                      coastlines kw) =
    plt_subplots (("projection", "EqualEarth") :: kw)
      :: np_arange_call minlon maxlon d
      :: np_arange_call minlat maxlat d
      :: np_meshgrid_call grid_lons grid_lats
      :: rest
    /\ ((method =? "nearest")%string = false ->
        (method =? "mean")%string = false -> rest = []).
Proof.
  unfold layer_grid. rewrite Hinst.
  cbn [negb length Nat.eqb extent item nth].
  rewrite (Qle_bool_false _ _ Hlon), (Qle_bool_false _ _ Hlat).
  run.
  assert (E : match delta with
            | Some d0 =>
                if Qle_bool d0 0
                then raise (ValueError [Lit "delta must be more than 0"])
                else ret d0
            | None => ret (py_max (maxlon - minlon) (maxlat - minlat) / 200)
            end = ret d).
  { subst d. unfold spacing in *. destruct delta as [d0|]; [|reflexivity].
    now rewrite (Qle_bool_false _ _ Hdelta). }
  rewrite E. run. fold grid_lons grid_lats.
  unfold np_meshgrid. run.
  eexists. split; [reflexivity|].
  intros H1 H2. rewrite H1, H2. reflexivity.
Qed.

End ValidCall.

(** ** Shapes *)

Lemma shape_rect {A} n (a : array2 A) :
  rect n a -> a <> [] -> shape a = (length a, n).
Proof.
  intros H Hne. destruct a as [|r a]; [congruence|].
  unfold shape. simpl. inversion H; subst. reflexivity.
Qed.

Lemma rect_rev {A} n (a : array2 A) : rect n a -> rect n (rev a).
Proof. unfold rect. intro H. now apply Forall_rev. Qed.

Lemma shape_flip n (a : grid) :
  rect n a -> (1 <= length a)%nat -> shape (np_flip0 a) = (length a, n).
Proof.
  intros H Hl. unfold np_flip0.
  rewrite (shape_rect n); [now rewrite length_rev|now apply rect_rev|].
  intro E. apply (f_equal (@length _)) in E. rewrite length_rev in E.
  simpl in E. lia.
Qed.

Lemma rect_map_rows {A B} (f : A -> list B) n (l : list A) :
  (forall x, In x l -> length (f x) = n) -> rect n (map f l).
Proof.
  intro H. unfold rect. apply Forall_forall. intros r Hr.
  apply in_map_iff in Hr. destruct Hr as [x [<- Hx]]. now apply H.
Qed.

Lemma griddata_nearest_mesh x y values xs ys :
  length x = length y -> length values = length x ->
  exists gr, griddata_nearest x y values (fst (np_meshgrid xs ys))
                              (snd (np_meshgrid xs ys)) = Ok gr
             /\ length gr = length ys /\ rect (length xs) gr.
Proof.
  intros Hxy Hv. unfold griddata_nearest, broadcast2.
  rewrite Hxy, Nat.eqb_refl.
  rewrite length_combine, Hv, Hxy, Nat.min_id, Nat.eqb_refl. simpl negb.
  cbv iota.
  eexists. split; [reflexivity|]. split.
  - unfold zip2, np_meshgrid. simpl.
    now rewrite !length_map, length_combine, !length_map, Nat.min_id.
  - unfold zip2. rewrite map_map. apply rect_map_rows.
    intros [r1 r2] Hin. rewrite length_map, length_combine. simpl.
    apply in_combine_l in Hin as H1. apply in_combine_r in Hin as H2.
    unfold np_meshgrid in *. simpl in *.
    apply in_map_iff in H1. destruct H1 as [? [<- _]].
    apply in_map_iff in H2. destruct H2 as [? [<- _]].
    now rewrite length_map, Nat.min_id.
Qed.

Lemma diffs_ramp lo step k n :
  Forall (fun x => x == step)
    (diffs (map (fun i => lo + inject_Z (Z.of_nat i) * step) (seq k n))).
Proof.
  revert k. induction n as [|n IH]; intro k; [constructor|].
  destruct n as [|n]; [constructor|].
  specialize (IH (S k)). simpl in *. constructor; [|exact IH].
  rewrite Zpos_P_of_succ_nat. unfold Z.succ. rewrite inject_Z_plus. ring.
Qed.

Lemma diffs_arange_nonzero lo hi step :
  0 < step ->
  existsb (fun x => Qeq_bool x 0) (diffs (np_arange lo hi step)) = false.
Proof.
  intro Hs. unfold np_arange.
  pose proof (diffs_ramp lo step 0 (Z.to_nat (Qceiling ((hi - lo) / step)))) as H.
  induction H as [|x l Hx _ IH]; [reflexivity|].
  simpl. rewrite IH, orb_false_r.
  destruct (Qeq_bool x 0) eqn:E; [|reflexivity].
  apply Qeq_bool_iff in E. rewrite Hx in E. rewrite E in Hs.
  exfalso. exact (Qlt_irrefl _ Hs).
Qed.

Lemma binned_statistic_2d_arange x y values lo1 hi1 lo2 hi2 step :
  length x = length y -> length values = length x -> x <> [] ->
  0 < step ->
  (2 <= steps lo1 hi1 step)%nat -> (2 <= steps lo2 hi2 step)%nat ->
  binned_statistic_2d x y values (np_arange lo1 hi1 step)
                      (np_arange lo2 hi2 step) =
  Ok (binned_means x y values (np_arange lo1 hi1 step)
                   (np_arange lo2 hi2 step)).
Proof.
  intros Hxy Hv Hne Hs H1 H2. unfold binned_statistic_2d.
  rewrite Hv, Hxy, !Nat.eqb_refl. simpl negb. cbv iota.
  destruct y as [|y0 y']; [destruct x; simpl in *; congruence|].
  simpl length at 1. simpl Nat.eqb. cbv iota.
  unfold edges_error. rewrite !np_arange_length.
  destruct (Nat.ltb_spec (steps lo1 hi1 step) 2); [lia|].
  destruct (Nat.ltb_spec (steps lo2 hi2 step) 2); [lia|].
  rewrite !diffs_arange_nonzero by assumption.
  unfold binned_means, bin_values.
  now rewrite !np_arange_length.
Qed.

Lemma binned_means_shape x y values xe ye :
  length (binned_means x y values xe ye) = (length xe - 1)%nat
  /\ rect (length ye - 1) (binned_means x y values xe ye).
Proof.
  unfold binned_means. split.
  - now rewrite length_map, length_seq.
  - apply rect_map_rows. intros. now rewrite length_map, length_seq.
Qed.

Lemma np_transpose_shape n (a : grid) :
  rect n a -> (1 <= length a)%nat ->
  length (np_transpose a) = n /\ rect (length a) (np_transpose a).
Proof.
  intros H Hl. unfold np_transpose. split.
  - rewrite length_map, length_seq.
    destruct a as [|r a]; [simpl in Hl; lia|]. inversion H; subst. reflexivity.
  - apply rect_map_rows. intros. now rewrite length_map.
Qed.

(** ** What layer_grid returns on a valid call *)

(** (What SciPy does without any sample depends on its version; the
    statements on method "nearest" are about a sample set with a sample.) *)
Lemma layer_grid_nearest_shape g lon lat radius values delta
    minlon maxlon minlat maxlat label coastlines kw :
  _CARTOPY_INSTALLED g = true ->
  minlon < maxlon -> minlat < maxlat ->
  0 < spacing [minlon; maxlon; minlat; maxlat] delta ->
  length lon = length lat -> length values = length lon -> lon <> [] ->
  exists ax,
    outcome (layer_grid g lon lat radius values delta
               [minlon; maxlon; minlat; maxlat] label "nearest" coastlines kw)
    = Ok ax
    /\ shape (ax_image ax) =
       (steps minlat maxlat (spacing [minlon; maxlon; minlat; maxlat] delta),
        steps minlon maxlon (spacing [minlon; maxlon; minlat; maxlat] delta)).
Proof.
  intros Hg Hlon Hlat Hd Hxy Hv _.
  rewrite valid_outcome by assumption. simpl String.eqb. cbv iota.
  destruct (griddata_nearest_mesh lon lat values
              (np_arange minlon maxlon (spacing [minlon; maxlon; minlat; maxlat] delta))
              (np_arange minlat maxlat (spacing [minlon; maxlon; minlat; maxlat] delta))
              Hxy Hv) as [gr [E [Hlen Hrect]]].
  rewrite E. eexists. split; [reflexivity|]. simpl ax_image.
  rewrite np_arange_length in Hlen, Hrect.
  rewrite (shape_flip _ _ Hrect).
  - now rewrite Hlen.
  - rewrite Hlen. now apply steps_pos.
Qed.

Lemma layer_grid_mean_image g lon lat radius values delta
    minlon maxlon minlat maxlat label coastlines kw :
  _CARTOPY_INSTALLED g = true ->
  minlon < maxlon -> minlat < maxlat ->
  0 < spacing [minlon; maxlon; minlat; maxlat] delta ->
  length lon = length lat -> length values = length lon -> lon <> [] ->
  (2 <= steps minlon maxlon (spacing [minlon; maxlon; minlat; maxlat] delta))%nat ->
  (2 <= steps minlat maxlat (spacing [minlon; maxlon; minlat; maxlat] delta))%nat ->
  exists ax,
    outcome (layer_grid g lon lat radius values delta
               [minlon; maxlon; minlat; maxlat] label "mean" coastlines kw)
    = Ok ax
    /\ ax_image ax =
       np_flip0 (np_transpose
         (binned_means lon lat values
            (np_arange minlon maxlon (spacing [minlon; maxlon; minlat; maxlat] delta))
            (np_arange minlat maxlat (spacing [minlon; maxlon; minlat; maxlat] delta)))).
Proof.
  intros Hg Hlon Hlat Hd Hxy Hv Hne H1 H2.
  rewrite valid_outcome by assumption. simpl String.eqb. cbv iota.
  rewrite binned_statistic_2d_arange by assumption.
  eexists. split; reflexivity.
Qed.

Lemma layer_grid_mean_shape g lon lat radius values delta
    minlon maxlon minlat maxlat label coastlines kw :
  _CARTOPY_INSTALLED g = true ->
  minlon < maxlon -> minlat < maxlat ->
  0 < spacing [minlon; maxlon; minlat; maxlat] delta ->
  length lon = length lat -> length values = length lon -> lon <> [] ->
  (2 <= steps minlon maxlon (spacing [minlon; maxlon; minlat; maxlat] delta))%nat ->
  (2 <= steps minlat maxlat (spacing [minlon; maxlon; minlat; maxlat] delta))%nat ->
  exists ax,
    outcome (layer_grid g lon lat radius values delta
               [minlon; maxlon; minlat; maxlat] label "mean" coastlines kw)
    = Ok ax
    /\ shape (ax_image ax) =
       ((steps minlat maxlat (spacing [minlon; maxlon; minlat; maxlat] delta) - 1)%nat,
        (steps minlon maxlon (spacing [minlon; maxlon; minlat; maxlat] delta) - 1)%nat).
Proof.
  intros Hg Hlon Hlat Hd Hxy Hv Hne H1 H2.
  destruct (layer_grid_mean_image g lon lat radius values delta minlon maxlon
              minlat maxlat label coastlines kw) as [ax [E I]]; try assumption.
  exists ax. split; [exact E|]. rewrite I.
  set (d := spacing _ _) in *.
  destruct (binned_means_shape lon lat values (np_arange minlon maxlon d)
              (np_arange minlat maxlat d)) as [Hl Hr].
  rewrite !np_arange_length in Hl, Hr.
  destruct (np_transpose_shape _ _ Hr) as [Hl' Hr']; [lia|].
  rewrite Hl in Hr'.
  rewrite (shape_flip _ _ Hr'); [now rewrite Hl'|lia].
Qed.

(** ** Calls that layer_grid rejects *)

Lemma layer_grid_rejects g lon lat radius values delta extent label method
    coastlines kw :
  _CARTOPY_INSTALLED g = true ->
  bad_extent extent \/ bad_delta delta ->
  trace (layer_grid g lon lat radius values delta extent label method
                    coastlines kw)
  = [plt_subplots (("projection", "EqualEarth") :: kw)]
  /\ exists m,
       outcome (layer_grid g lon lat radius values delta extent label method
                           coastlines kw)
       = Raise (ValueError m).
Proof.
  intros Hg Hbad. unfold layer_grid. rewrite Hg. cbn [negb].
  destruct (Nat.eqb_spec (length extent) 4) as [E4|N4];
    [|run; split; [reflexivity|eauto]].
  destruct (Qle_bool (item extent 1) (item extent 0)) eqn:E1;
    [run; split; [reflexivity|eauto]|].
  destruct (Qle_bool (item extent 3) (item extent 2)) eqn:E2;
    [run; split; [reflexivity|eauto]|].
  destruct Hbad as [[H|[H|H]]|[d [-> Hd]]].
  - contradiction.
  - apply Qle_bool_true in H. congruence.
  - apply Qle_bool_true in H. congruence.
  - rewrite (Qle_bool_true _ _ Hd). run. split; [reflexivity|eauto].
Qed.

Lemma layer_grid_unsupported g lon lat radius values delta
    minlon maxlon minlat maxlat label method coastlines kw :
  _CARTOPY_INSTALLED g = true ->
  minlon < maxlon -> minlat < maxlat ->
  0 < spacing [minlon; maxlon; minlat; maxlat] delta ->
  method <> "nearest" -> method <> "mean" ->
  trace (layer_grid g lon lat radius values delta
           [minlon; maxlon; minlat; maxlat] label method coastlines kw)
  = [plt_subplots (("projection", "EqualEarth") :: kw);
     np_arange_call minlon maxlon (spacing [minlon; maxlon; minlat; maxlat] delta);
     np_arange_call minlat maxlat (spacing [minlon; maxlon; minlat; maxlat] delta);
     np_meshgrid_call
       (np_arange minlon maxlon (spacing [minlon; maxlon; minlat; maxlat] delta))
       (np_arange minlat maxlat (spacing [minlon; maxlon; minlat; maxlat] delta))]
  /\ outcome (layer_grid g lon lat radius values delta
                [minlon; maxlon; minlat; maxlat] label method coastlines kw)
     = Raise (ValueError [Lit ("unsupported method '" ++ method ++ "'")%string]).
Proof.
  intros Hg Hlon Hlat Hd Hn Hm.
  apply String.eqb_neq in Hn. apply String.eqb_neq in Hm. split.
  - destruct (valid_trace_prefix g Hg lon lat values radius minlon maxlon
                minlat maxlat delta label coastlines kw Hlon Hlat Hd method)
      as [rest [E Hrest]].
    rewrite E, (Hrest Hn Hm). reflexivity.
  - rewrite valid_outcome by assumption. now rewrite Hn, Hm.
Qed.

Lemma default_spacing_pos minlon maxlon minlat maxlat :
  minlon < maxlon -> 0 < spacing [minlon; maxlon; minlat; maxlat] None.
Proof.
  intro H. unfold spacing, item. simpl nth.
  apply Qlt_shift_div_l; [reflexivity|]. rewrite Qmult_0_l.
  apply py_max_pos. unfold Qminus. rewrite <- (Qplus_opp_r minlon).
  now apply Qplus_lt_l.
Qed.

(** ** Bins of an axis

    The grid lines of an axis are increasing, so [np.digitize] counts the
    lines up to the coordinate, and bin [i] holds the coordinates from
    line [i] up to line [i + 1], the upper line excluded; SciPy closes the
    last bin on its upper line. *)


Lemma line_lt lo d k k' : 0 < d -> (k < k')%nat -> line lo d k < line lo d k'.
Proof.
  intros Hd Hk. unfold line. apply Qplus_lt_r.
  apply Qmult_lt_compat_r; [exact Hd|].
  rewrite <- Zlt_Qlt. lia.
Qed.

Lemma np_arange_lines lo hi d :
  np_arange lo hi d = map (line lo d) (seq 0 (steps lo hi d)).
Proof. reflexivity. Qed.





(** ** Cells of the "mean" grid *)

Lemma get2_binned_means x y values xe ye i j :
  (i < length xe - 1)%nat -> (j < length ye - 1)%nat ->
  get2 (binned_means x y values xe ye) i j
  = Some (mean_cell (bin_values x y values xe ye i j)).
Proof.
  intros Hi Hj. unfold get2, binned_means.
  rewrite nth_error_map, nth_error_seq.
  destruct (Nat.ltb_spec i (length xe - 1)); [|lia]. simpl.
  rewrite nth_error_map, nth_error_seq.
  destruct (Nat.ltb_spec j (length ye - 1)); [|lia]. reflexivity.
Qed.

Lemma get2_transpose n (a : grid) i j v :
  rect n a -> get2 a i j = Some v -> get2 (np_transpose a) j i = Some v.
Proof.
  intros Hr H. unfold get2 in *.
  destruct (nth_error a i) as [r|] eqn:Er; [|discriminate].
  assert (Hin : In r a) by (eapply nth_error_In; eassumption).
  assert (Hlen : length r = n).
  { unfold rect in Hr. rewrite Forall_forall in Hr. now apply Hr. }
  assert (Hj : (j < n)%nat).
  { rewrite <- Hlen. apply nth_error_Some. congruence. }
  assert (Hhd : length (hd [] a) = n).
  { destruct a as [|r0 a]; [destruct i; discriminate|].
    inversion Hr; subst. assumption. }
  unfold np_transpose. rewrite nth_error_map, nth_error_seq, Hhd.
  destruct (Nat.ltb_spec j n); [|lia]. simpl.
  rewrite nth_error_map, Er. simpl. f_equal.
  now apply nth_error_nth.
Qed.

Lemma get2_flip (a : grid) i j :
  (i < length a)%nat ->
  get2 (np_flip0 a) i j = get2 a (length a - S i) j.
Proof.
  intro Hi. unfold get2, np_flip0. rewrite nth_error_rev.
  now destruct (Nat.ltb_spec i (length a)); [|lia].
Qed.

(** Row [r], column [c] of the grid that is drawn for method "mean" is the
    statistic of longitude bin [c] and latitude bin [ny - 2 - r]. *)
Lemma get2_mean_image x y values xe ye r c :
  (c < length xe - 1)%nat -> (r < length ye - 1)%nat ->
  get2 (np_flip0 (np_transpose (binned_means x y values xe ye))) r c
  = Some (mean_cell (bin_values x y values xe ye c (length ye - 2 - r))).
Proof.
  intros Hc Hr.
  destruct (binned_means_shape x y values xe ye) as [Hl Hrect].
  destruct (np_transpose_shape _ _ Hrect) as [Hl' _]; [lia|].
  rewrite get2_flip by lia. rewrite Hl'.
  apply (get2_transpose _ _ _ _ _ Hrect).
  replace (length ye - 1 - S r)%nat with (length ye - 2 - r)%nat by lia.
  apply get2_binned_means; lia.
Qed.

Lemma mean_cell_empty : mean_cell [] = NaN.
Proof. reflexivity. Qed.

Lemma mean_cell_single v : cell_eq (mean_cell [v]) (Num v).
Proof. simpl. unfold Qsum. simpl. field. Qed.

Lemma mean_cell_nonempty vs :
  vs <> [] ->
  mean_cell vs = Num (Qsum vs / inject_Z (Z.of_nat (length vs))).
Proof. destruct vs; [congruence|reflexivity]. Qed.

Lemma mean_cell_is_bin_mean vs : cell_is_bin_mean (mean_cell vs) vs.
Proof.
  split; [|split].
  - intros ->. reflexivity.
  - intros s ->. apply mean_cell_single.
  - apply mean_cell_nonempty.
Qed.

(** ** Slices *)

Lemma length_py_slice {A} (a b : Z) (l : list A) :
  (0 <= a)%Z -> (0 <= b)%Z ->
  length (py_slice a b l)
  = (Nat.min (Z.to_nat b) (length l) - Nat.min (Z.to_nat a) (length l))%nat.
Proof.
  intros Ha Hb. unfold py_slice, slice_bound.
  destruct (Z.ltb_spec a 0); [lia|]. destruct (Z.ltb_spec b 0); [lia|].
  rewrite length_firstn, length_skipn. lia.
Qed.

Lemma nth_error_py_slice {A} (a b : Z) (l : list A) j :
  (0 <= a)%Z -> (0 <= b)%Z ->
  nth_error (py_slice a b l) j
  = if (Z.of_nat j <? b - a)%Z then nth_error l (Z.to_nat a + j) else None.
Proof.
  intros Ha Hb. unfold py_slice, slice_bound.
  destruct (Z.ltb_spec a 0); [lia|]. destruct (Z.ltb_spec b 0); [lia|].
  rewrite nth_error_firstn, nth_error_skipn.
  destruct (Nat.ltb_spec j
              (Nat.min (Z.to_nat b) (length l) - Nat.min (Z.to_nat a) (length l)));
    destruct (Z.ltb_spec (Z.of_nat j) (b - a)).
  - f_equal. lia.
  - lia.
  - symmetry. apply nth_error_None. lia.
  - reflexivity.
Qed.

Lemma get2_slice2 {A} (r0 r1 c0 c1 : Z) (a : array2 A) i j :
  (0 <= r0)%Z -> (0 <= r1)%Z -> (0 <= c0)%Z -> (0 <= c1)%Z ->
  get2 (slice2 r0 r1 c0 c1 a) i j
  = if ((Z.of_nat i <? r1 - r0)%Z && (Z.of_nat j <? c1 - c0)%Z)%bool
    then get2 a (Z.to_nat r0 + i) (Z.to_nat c0 + j)
    else None.
Proof.
  intros Hr0 Hr1 Hc0 Hc1. unfold get2, slice2.
  rewrite nth_error_map, nth_error_py_slice by assumption.
  destruct (Z.of_nat i <? r1 - r0)%Z; [|reflexivity]. simpl.
  destruct (nth_error a (Z.to_nat r0 + i)) as [r|]; simpl.
  - now apply nth_error_py_slice.
  - now destruct (Z.of_nat j <? c1 - c0)%Z.
Qed.

Lemma In_py_slice {A} (a b : Z) (l : list A) x :
  In x (py_slice a b l) -> In x l.
Proof.
  unfold py_slice. intro H.
  set (n := slice_bound (length l) a) in *.
  set (k := (slice_bound (length l) b - n)%nat) in *.
  rewrite <- (firstn_skipn n l). apply in_or_app. right.
  rewrite <- (firstn_skipn k (skipn n l)). apply in_or_app. now left.
Qed.

Lemma size_zero_concat {A B} (f : A -> B) (a : array2 A) :
  size a = 0%nat -> concat (map (map f) a) = [].
Proof.
  induction a as [|r a IH]; [reflexivity|]. simpl. intro H.
  destruct r; [|simpl in H; lia]. simpl. apply IH. exact H.
Qed.

Lemma size_rows_empty {A} (a : array2 A) :
  Forall (fun r => r = []) a -> size a = 0%nat.
Proof.
  induction 1 as [|r a Hr _ IH]; [reflexivity|]. subst r. exact IH.
Qed.

Lemma py_slice_empty {A} (a b : Z) (l : list A) :
  (0 <= a)%Z -> (0 <= b)%Z -> (b <= a)%Z -> py_slice a b l = [].
Proof.
  intros Ha Hb Hab. apply length_zero_iff_nil.
  rewrite length_py_slice by assumption. lia.
Qed.

Lemma slice2_empty {A} (r0 r1 c0 c1 : Z) (a : array2 A) :
  (0 <= r0)%Z -> (0 <= r1)%Z -> (0 <= c0)%Z -> (0 <= c1)%Z ->
  (r1 <= r0)%Z \/ (c1 <= c0)%Z ->
  size (slice2 r0 r1 c0 c1 a) = 0%nat.
Proof.
  intros Hr0 Hr1 Hc0 Hc1 [H|H]; unfold slice2.
  - now rewrite py_slice_empty.
  - apply size_rows_empty, Forall_forall. intros r Hin.
    apply in_map_iff in Hin. destruct Hin as [x [<- _]].
    now apply py_slice_empty.
Qed.

(** * The claims *)

(** C1.  The "mean" path does not produce the grid shape of the "nearest"
    path.  On extent (-180, 180, -90, 90) with spacing 90 the axes carry
    ceil(180/90) = 2 latitude lines and ceil(360/90) = 4 longitude lines,
    and the grid of method "mean" has shape (1, 3): the grid lines are
    handed to [binned_statistic_2d] as bin edges, which leaves one bin
    fewer than lines on each axis. *)
Theorem mean_grid_one_short_per_axis :
  exists ax,
    outcome (layer_grid installed [0; 10; -100] [0; 10; -50] 6370 [1; 2; 7]
               (Some 90) default_extent None "mean" true [])
    = Ok ax
    /\ shape (ax_image ax) = (1, 3)%nat
    /\ (steps (-90) 90 90, steps (-180) 180 90) = (2, 4)%nat.
Proof.
  eexists. split; [vm_compute; reflexivity|].
  split; vm_compute; reflexivity.
Qed.

(** C2, as the code has it.  With extent (-180, 180, -90, 90) and spacing
    90 the longitude lines are [-180, -90, 0, 90] and the latitude lines
    are [-90, 0] (the stop 90 is excluded on both axes), and the grid of
    the default method "nearest" has shape (2, 4). *)
Theorem default_extent_spacing_90 g lon lat radius values label coastlines kw :
  _CARTOPY_INSTALLED g = true ->
  length lon = length lat -> length values = length lon -> lon <> [] ->
  exists rest ax,
    trace (layer_grid g lon lat radius values (Some 90) default_extent label
                      "nearest" coastlines kw)
    = plt_subplots (("projection", "EqualEarth") :: kw)
        :: np_arange_call (-180) 180 90
        :: np_arange_call (-90) 90 90
        :: np_meshgrid_call [-180; -90; 0; 90] [-90; 0]
        :: rest
    /\ outcome (layer_grid g lon lat radius values (Some 90) default_extent
                           label "nearest" coastlines kw)
       = Ok ax
    /\ shape (ax_image ax) = (2, 4)%nat.
Proof.
  intros Hg Hxy Hv Hne. unfold default_extent.
  assert (Hlon : -180 < 180) by reflexivity.
  assert (Hlat : -90 < 90) by reflexivity.
  assert (Hd : 0 < spacing [-180; 180; -90; 90] (Some 90)) by reflexivity.
  destruct (valid_trace_prefix g Hg lon lat values radius (-180) 180 (-90) 90
              (Some 90) label coastlines kw Hlon Hlat Hd "nearest")
    as [rest [E _]].
  destruct (layer_grid_nearest_shape g lon lat radius values (Some 90)
              (-180) 180 (-90) 90 label coastlines kw Hg Hlon Hlat Hd Hxy Hv
              Hne)
    as [ax [Eo Es]].
  exists rest, ax. split; [exact E|]. split; [exact Eo|exact Es].
Qed.

Lemma default_extent_spacing_90_witness :
  exists rest ax,
    trace (layer_grid installed [0; 10] [0; 10] 6370 [1; 2] (Some 90)
                      default_extent None "nearest" true [])
    = plt_subplots [("projection", "EqualEarth")]
        :: np_arange_call (-180) 180 90
        :: np_arange_call (-90) 90 90
        :: np_meshgrid_call [-180; -90; 0; 90] [-90; 0]
        :: rest
    /\ outcome (layer_grid installed [0; 10] [0; 10] 6370 [1; 2] (Some 90)
                           default_extent None "nearest" true [])
       = Ok ax
    /\ shape (ax_image ax) = (2, 4)%nat.
Proof.
  apply (default_extent_spacing_90 installed [0; 10] [0; 10] 6370 [1; 2] None
           true []); try reflexivity; discriminate.
Defined.

(** C2 as the specification words it fails: the call does not lay out the
    latitude lines [-90, 0, 90], and its grid does not have shape (3, 4). *)
Lemma default_extent_spacing_90_not_3_by_4 :
  ~ In (np_meshgrid_call [-180; -90; 0; 90] [-90; 0; 90])
       (trace (layer_grid installed [0; 10] [0; 10] 6370 [1; 2] (Some 90)
                          default_extent None "nearest" true []))
  /\ ~ (exists ax,
          outcome (layer_grid installed [0; 10] [0; 10] 6370 [1; 2] (Some 90)
                              default_extent None "nearest" true [])
          = Ok ax
          /\ shape (ax_image ax) = (3, 4)%nat).
Proof.
  split.
  - intro H. vm_compute in H.
    repeat (destruct H as [H|H]; [discriminate H|]). exact H.
  - intros [ax [E S]]. vm_compute in E. injection E as <-.
    vm_compute in S. discriminate S.
Qed.

(** C3, as the code has it.  When the extent or the spacing is rejected,
    the figure and axes have been created ([plt.subplots], line 64) and
    nothing else has happened; when the method is rejected, the grid lines
    and the mesh have been computed as well, but no grid value.  Nothing is
    drawn on either path. *)
Theorem validation_error_after_figure g lon lat radius values delta extent
    label method coastlines kw :
  _CARTOPY_INSTALLED g = true ->
  (bad_extent extent \/ bad_delta delta ->
   trace (layer_grid g lon lat radius values delta extent label method
                     coastlines kw)
   = [plt_subplots (("projection", "EqualEarth") :: kw)]
   /\ exists m,
        outcome (layer_grid g lon lat radius values delta extent label method
                            coastlines kw)
        = Raise (ValueError m))
  /\ (forall minlon maxlon minlat maxlat,
        extent = [minlon; maxlon; minlat; maxlat] ->
        minlon < maxlon -> minlat < maxlat -> 0 < spacing extent delta ->
        method <> "nearest" -> method <> "mean" ->
        trace (layer_grid g lon lat radius values delta extent label method
                          coastlines kw)
        = [plt_subplots (("projection", "EqualEarth") :: kw);
           np_arange_call minlon maxlon (spacing extent delta);
           np_arange_call minlat maxlat (spacing extent delta);
           np_meshgrid_call (np_arange minlon maxlon (spacing extent delta))
                            (np_arange minlat maxlat (spacing extent delta))]
        /\ exists m,
             outcome (layer_grid g lon lat radius values delta extent label
                                 method coastlines kw)
             = Raise (ValueError m)).
Proof.
  intro Hg. split.
  - intro Hbad. now apply layer_grid_rejects.
  - intros minlon maxlon minlat maxlat -> Hlon Hlat Hd Hn Hm.
    destruct (layer_grid_unsupported g lon lat radius values delta minlon
                maxlon minlat maxlat label method coastlines kw
                Hg Hlon Hlat Hd Hn Hm) as [T O].
    split; [exact T|eauto].
Qed.

Lemma validation_error_after_figure_witness :
  trace (layer_grid installed [0] [0] 6370 [1] None [1; 2; 3] None "nearest"
                    true [])
  = [plt_subplots [("projection", "EqualEarth")]]
  /\ exists m,
       outcome (layer_grid installed [0] [0] 6370 [1] None [1; 2; 3] None
                           "nearest" true [])
       = Raise (ValueError m).
Proof.
  apply (proj1 (validation_error_after_figure installed [0] [0] 6370 [1] None
                  [1; 2; 3] None "nearest" true [] eq_refl)).
  left. left. simpl. lia.
Defined.

(** C3 as the specification words it fails: a call with a three-value
    extent raises the extent error with the figure already created. *)
Lemma figure_created_before_extent_error :
  outcome (layer_grid installed [0] [0] 6370 [1] None [1; 2; 3] None
                      "nearest" true [])
  = Raise (ValueError [Lit "extent must contain four values"])
  /\ trace (layer_grid installed [0] [0] 6370 [1] None [1; 2; 3] None
                       "nearest" true [])
     = [plt_subplots [("projection", "EqualEarth")]]
  /\ trace (layer_grid installed [0] [0] 6370 [1] None [1; 2; 3] None
                       "nearest" true [])
     <> [].
Proof.
  split; [reflexivity|]. split; [reflexivity|]. discriminate.
Qed.

(** C6.  When the import of cartopy failed with an ImportError, the module
    loads with that error stored; every call of layer_grid writes the
    diagnostic to stderr and then raises the stored error, and nothing else
    happens; spectral_heterogeneity runs as it does with cartopy there. *)
Theorem missing_cartopy_reraised m :
  load_module (ImportFailed (ImportError m)) = Ok (missing m)
  /\ (forall lon lat radius values delta extent label method coastlines kw,
        layer_grid (missing m) lon lat radius values delta extent label
                   method coastlines kw
        = ([stderr_write "layer_grid require cartopy to be installed"],
           Raise (ImportError m)))
  /\ (forall indat title depths lmin lmax saveplot savepath lyrmin lyrmax kw,
        spectral_heterogeneity (missing m) indat title depths lmin lmax
                               saveplot savepath lyrmin lyrmax kw
        = spectral_heterogeneity installed indat title depths lmin lmax
                                 saveplot savepath lyrmin lyrmax kw).
Proof.
  split; [reflexivity|]. split; intros; reflexivity.
Qed.

(** C7, as the code has it.  With cartopy there, an extent that has not
    four values, or whose maximum longitude is not above its minimum, or
    whose maximum latitude is not above its minimum, makes layer_grid
    raise ValueError; the three checks are tried in this order, each with
    its own message. *)
Theorem bad_extent_raises g lon lat radius values delta extent label method
    coastlines kw :
  _CARTOPY_INSTALLED g = true ->
  (bad_extent extent ->
   exists m,
     outcome (layer_grid g lon lat radius values delta extent label method
                         coastlines kw)
     = Raise (ValueError m))
  /\ (length extent <> 4%nat ->
      outcome (layer_grid g lon lat radius values delta extent label method
                          coastlines kw)
      = Raise (ValueError [Lit "extent must contain four values"]))
  /\ (length extent = 4%nat -> item extent 1 <= item extent 0 ->
      outcome (layer_grid g lon lat radius values delta extent label method
                          coastlines kw)
      = Raise (ValueError
                 [Lit "maximum longitude must be more than minimum; have";
                  Lit "min = "; NumF (item extent 0);
                  Lit " and max = "; NumF (item extent 1)]))
  /\ (length extent = 4%nat -> item extent 0 < item extent 1 ->
      item extent 3 <= item extent 2 ->
      outcome (layer_grid g lon lat radius values delta extent label method
                          coastlines kw)
      = Raise (ValueError
                 [Lit "maximum latitude must be more than minimum; have";
                  Lit "min = "; NumF (item extent 2);
                  Lit " and max = "; NumF (item extent 3)])).
Proof.
  intro Hg. split; [|split; [|split]].
  - intro Hbad. apply layer_grid_rejects; [exact Hg|now left].
  - intro N4. unfold layer_grid. rewrite Hg. cbn [negb].
    destruct (Nat.eqb_spec (length extent) 4); [contradiction|]. now run.
  - intros E4 H1. unfold layer_grid. rewrite Hg, E4. cbn [negb Nat.eqb].
    rewrite (Qle_bool_true _ _ H1). now run.
  - intros E4 H1 H3. unfold layer_grid. rewrite Hg, E4. cbn [negb Nat.eqb].
    rewrite (Qle_bool_false _ _ H1), (Qle_bool_true _ _ H3). now run.
Qed.

Lemma bad_extent_raises_witness :
  exists m,
    outcome (layer_grid installed [0] [0] 6370 [1] None [10; 10; 0; 5] None
                        "nearest" true [])
    = Raise (ValueError m).
Proof.
  apply (proj1 (bad_extent_raises installed [0] [0] 6370 [1] None
                  [10; 10; 0; 5] None "nearest" true [] eq_refl)).
  right. left. simpl. discriminate.
Defined.

(** C7 as the specification words it fails: without cartopy a call with a
    three-value extent raises the stored ImportError, not ValueError. *)
Lemma bad_extent_without_cartopy :
  ~ exists m,
      outcome (layer_grid (missing [Lit "No module named 'cartopy'"])
                 [0] [0] 6370 [1] None [1; 2; 3] None "nearest" true [])
      = Raise (ValueError m).
Proof. intros [m H]. discriminate H. Qed.

(** C8, as the code has it.  With cartopy there, a given spacing that is
    not positive makes layer_grid raise ValueError, with the message
    "delta must be more than 0" when the extent is valid; and when the
    spacing is omitted and the extent is valid, both axes are laid out
    with the spacing max(maxlon - minlon, maxlat - minlat) / 200. *)
Theorem delta_checked_or_defaulted g lon lat radius values label method
    coastlines kw :
  _CARTOPY_INSTALLED g = true ->
  (forall delta extent,
      bad_delta delta ->
      exists m,
        outcome (layer_grid g lon lat radius values delta extent label method
                            coastlines kw)
        = Raise (ValueError m))
  /\ (forall d minlon maxlon minlat maxlat,
        d <= 0 -> minlon < maxlon -> minlat < maxlat ->
        outcome (layer_grid g lon lat radius values (Some d)
                   [minlon; maxlon; minlat; maxlat] label method coastlines kw)
        = Raise (ValueError [Lit "delta must be more than 0"]))
  /\ (forall minlon maxlon minlat maxlat,
        minlon < maxlon -> minlat < maxlat ->
        exists rest,
          trace (layer_grid g lon lat radius values None
                   [minlon; maxlon; minlat; maxlat] label method coastlines kw)
          = plt_subplots (("projection", "EqualEarth") :: kw)
              :: np_arange_call minlon maxlon
                   (py_max (maxlon - minlon) (maxlat - minlat) / 200)
              :: np_arange_call minlat maxlat
                   (py_max (maxlon - minlon) (maxlat - minlat) / 200)
              :: np_meshgrid_call
                   (np_arange minlon maxlon
                      (py_max (maxlon - minlon) (maxlat - minlat) / 200))
                   (np_arange minlat maxlat
                      (py_max (maxlon - minlon) (maxlat - minlat) / 200))
              :: rest).
Proof.
  intro Hg. split; [|split].
  - intros delta extent Hbad. apply layer_grid_rejects; [exact Hg|now right].
  - intros d minlon maxlon minlat maxlat Hd Hlon Hlat.
    unfold layer_grid. rewrite Hg. cbn [negb length Nat.eqb item nth].
    rewrite (Qle_bool_false _ _ Hlon), (Qle_bool_false _ _ Hlat),
      (Qle_bool_true _ _ Hd). now run.
  - intros minlon maxlon minlat maxlat Hlon Hlat.
    destruct (valid_trace_prefix g Hg lon lat values radius minlon maxlon
                minlat maxlat None label coastlines kw Hlon Hlat
                (default_spacing_pos _ _ _ _ Hlon) method) as [rest [E _]].
    exists rest. exact E.
Qed.

Lemma delta_checked_or_defaulted_witness :
  outcome (layer_grid installed [0] [0] 6370 [1] (Some 0) default_extent None
                      "nearest" true [])
  = Raise (ValueError [Lit "delta must be more than 0"]).
Proof.
  apply (proj1 (proj2 (delta_checked_or_defaulted installed [0] [0] 6370 [1]
                         None "nearest" true [] eq_refl)));
    [discriminate | reflexivity | reflexivity].
Defined.

(** C8 as the specification words it fails: without cartopy a call with
    spacing 0 raises the stored ImportError, not ValueError. *)
Lemma bad_delta_without_cartopy :
  ~ exists m,
      outcome (layer_grid (missing [Lit "No module named 'cartopy'"])
                 [0] [0] 6370 [1] (Some 0) default_extent None "nearest"
                 true [])
      = Raise (ValueError m).
Proof. intros [m H]. discriminate H. Qed.

(** C9, as the code has it.  With cartopy there, a valid extent and a valid
    spacing, a method other than "nearest" and "mean" makes layer_grid
    raise ValueError with the message "unsupported method '<method>'". *)
Theorem unsupported_method_raises g lon lat radius values delta
    minlon maxlon minlat maxlat label method coastlines kw :
  _CARTOPY_INSTALLED g = true ->
  minlon < maxlon -> minlat < maxlat ->
  0 < spacing [minlon; maxlon; minlat; maxlat] delta ->
  method <> "nearest" -> method <> "mean" ->
  outcome (layer_grid g lon lat radius values delta
             [minlon; maxlon; minlat; maxlat] label method coastlines kw)
  = Raise (ValueError [Lit ("unsupported method '" ++ method ++ "'")%string]).
Proof.
  intros Hg Hlon Hlat Hd Hn Hm.
  now apply layer_grid_unsupported.
Qed.

Lemma unsupported_method_raises_witness :
  outcome (layer_grid installed [0] [0] 6370 [1] None default_extent None
                      "linear" true [])
  = Raise (ValueError [Lit "unsupported method 'linear'"]).
Proof.
  apply (unsupported_method_raises installed [0] [0] 6370 [1] None
           (-180) 180 (-90) 90 None "linear" true []);
    try reflexivity; discriminate.
Defined.

(** C9 as the specification words it fails: without cartopy a call with
    the method "linear" raises the stored ImportError, not ValueError. *)
Lemma unsupported_method_without_cartopy :
  ~ exists m,
      outcome (layer_grid (missing [Lit "No module named 'cartopy'"])
                 [0] [0] 6370 [1] None default_extent None "linear" true [])
      = Raise (ValueError m).
Proof. intros [m H]. discriminate H. Qed.

(** C4.  With method "mean", on a call that returns, the cell in row [r]
    and column [c] of the grid is the statistic of the samples whose
    longitude falls in bin [c] and whose latitude falls in bin
    [nlat - 2 - r] of the grid lines: NaN when there is no such sample,
    the sample's value when there is exactly one, and the sum of the values
    over their number when there is at least one.  ([in_bin_lines] says
    which samples these are: bin [i] of an axis runs from line [i] up to
    line [i + 1].) *)
Theorem mean_cell_values g lon lat radius values delta
    minlon maxlon minlat maxlat label coastlines kw :
  let extent := [minlon; maxlon; minlat; maxlat] in
  let xe := lon_lines extent delta in
  let ye := lat_lines extent delta in
  _CARTOPY_INSTALLED g = true ->
  minlon < maxlon -> minlat < maxlat -> 0 < spacing extent delta ->
  length lon = length lat -> length values = length lon -> lon <> [] ->
  (2 <= length xe)%nat -> (2 <= length ye)%nat ->
  exists ax,
    outcome (layer_grid g lon lat radius values delta extent label "mean"
                        coastlines kw)
    = Ok ax
    /\ forall r c,
        (r < length ye - 1)%nat -> (c < length xe - 1)%nat ->
        exists v,
          get2 (ax_image ax) r c = Some v
          /\ cell_is_bin_mean v
               (bin_values lon lat values xe ye c (length ye - 2 - r)).
Proof.
  intros extent xe ye Hg Hlon Hlat Hd Hxy Hv Hne H1 H2.
  unfold xe, ye, lon_lines, lat_lines in H1, H2.
  rewrite np_arange_length in H1, H2.
  destruct (layer_grid_mean_image g lon lat radius values delta minlon maxlon
              minlat maxlat label coastlines kw) as [ax [E I]]; try assumption.
  exists ax. split; [exact E|]. intros r c Hr Hc.
  exists (mean_cell (bin_values lon lat values xe ye c (length ye - 2 - r))).
  split.
  - rewrite I. apply get2_mean_image.
    + unfold xe, lon_lines in Hc. exact Hc.
    + unfold ye, lat_lines in Hr. exact Hr.
  - apply mean_cell_is_bin_mean.
Qed.

Lemma mean_cell_values_witness :
  exists ax,
    outcome (layer_grid installed [0; 10; -100; 20] [0; 10; -50; 30] 6370
               [1; 2; 7; 4] (Some 90) default_extent None "mean"
               true [])
    = Ok ax
    /\ forall r c,
        (r < length (lat_lines default_extent (Some 90%Q)) - 1)%nat ->
        (c < length (lon_lines default_extent (Some 90%Q)) - 1)%nat ->
        exists v,
          get2 (ax_image ax) r c = Some v
          /\ cell_is_bin_mean v
               (bin_values [0; 10; -100; 20] [0; 10; -50; 30] [1; 2; 7; 4]
                  (lon_lines default_extent (Some 90%Q))
                  (lat_lines default_extent (Some 90%Q)) c
                  (length (lat_lines default_extent (Some 90%Q)) - 2 - r)).
Proof.
  apply (mean_cell_values installed [0; 10; -100; 20] [0; 10; -50; 30] 6370
           [1; 2; 7; 4] (Some 90) (-180) 180 (-90) 90 None true []);
    try reflexivity; try discriminate; vm_compute; lia.
Defined.

(** C5.  spectral_heterogeneity hands to the logarithm the sub-array of
    rows [lyrmin, lyrmax) and columns [lmin, lmax], the upper degree
    included: its element (i, j) is element (lyrmin + i, lmin + j) of the
    input for i < lyrmax - lyrmin and j <= lmax - lmin, and there is no
    other element.  For an input of shape (10, 21) with lmin = 2,
    lmax = 10, lyrmin = 1, lyrmax = 5 the sub-array has shape (4, 9). *)
Theorem spectrum_slice g indat title depths lmin lmax saveplot savepath
    lyrmin lyrmax kw :
  (0 <= lyrmin)%Z -> (0 <= lyrmax)%Z -> (0 <= lmin)%Z -> (0 <= lmax)%Z ->
  exists sub rest,
    trace (spectral_heterogeneity g indat title depths lmin lmax saveplot
                                  savepath lyrmin lyrmax kw)
    = np_log_call sub :: rest
    /\ (forall i j,
          get2 sub i j
          = if ((Z.of_nat i <? lyrmax - lyrmin)%Z
                && (Z.of_nat j <=? lmax - lmin)%Z)%bool
            then get2 indat (Z.to_nat lyrmin + i) (Z.to_nat lmin + j)
            else None)
    /\ (length indat = 10%nat -> rect 21 indat ->
        lmin = 2%Z -> lmax = 10%Z -> lyrmin = 1%Z -> lyrmax = 5%Z ->
        shape sub = (4, 9)%nat).
Proof.
  intros H1 H2 H3 H4.
  exists (slice2 lyrmin lyrmax lmin (lmax + 1) indat). eexists.
  split; [|split].
  - unfold spectral_heterogeneity. rewrite trace_bind. reflexivity.
  - intros i j. rewrite get2_slice2 by lia.
    replace (Z.of_nat j <? lmax + 1 - lmin)%Z
      with (Z.of_nat j <=? lmax - lmin)%Z; [reflexivity|].
    destruct (Z.leb_spec (Z.of_nat j) (lmax - lmin));
      destruct (Z.ltb_spec (Z.of_nat j) (lmax + 1 - lmin)); lia || reflexivity.
  - intros Hlen Hrect -> -> -> ->.
    assert (Hrows : length (py_slice 1 5 indat) = 4%nat).
    { rewrite length_py_slice by lia. rewrite Hlen. reflexivity. }
    unfold slice2. rewrite (shape_rect 9).
    + now rewrite length_map, Hrows.
    + apply rect_map_rows. intros r Hin. apply In_py_slice in Hin.
      unfold rect in Hrect. rewrite Forall_forall in Hrect.
      rewrite length_py_slice by lia. rewrite (Hrect r Hin). reflexivity.
    + intro E. apply (f_equal (@length _)) in E.
      rewrite length_map, Hrows in E. discriminate E.
Qed.

Lemma spectrum_slice_witness :
  exists sub rest,
    trace (spectral_heterogeneity installed (ramp 10 21) None
             [1; 2; 3; 4; 5; 6; 7; 8; 9; 10] 2 10 false None 1 5 [])
    = np_log_call sub :: rest
    /\ shape sub = (4, 9)%nat
    /\ get2 sub 0 0 = get2 (ramp 10 21) 1 2
    /\ get2 sub 3 8 = get2 (ramp 10 21) 4 10
    /\ get2 sub 4 0 = None /\ get2 sub 0 9 = None.
Proof.
  destruct (spectrum_slice installed (ramp 10 21) None
              [1; 2; 3; 4; 5; 6; 7; 8; 9; 10] 2 10 false None 1 5 [])
    as [sub [rest [T [G S]]]]; try lia.
  exists sub, rest. split; [exact T|]. split.
  - apply S; try reflexivity. unfold rect. repeat constructor.
  - rewrite !G. repeat split.
Defined.

(** C10.  spectral_heterogeneity checks none of lmin, lmax, lyrmin and
    lyrmax: whenever the selected sub-array has no element, the run gets as
    far as [np.min] (the logarithm is taken and the figure created) and
    raises there the ValueError of a reduction over an empty array, instead
    of returning; and for non-negative bounds the sub-array has no element
    as soon as lyrmax <= lyrmin or lmax < lmin. *)
Theorem empty_slice_raises g indat title depths lmin lmax saveplot savepath
    lyrmin lyrmax kw :
  (size (slice2 lyrmin lyrmax lmin (lmax + 1) indat) = 0%nat ->
   spectral_heterogeneity g indat title depths lmin lmax saveplot savepath
                          lyrmin lyrmax kw
   = ([np_log_call (slice2 lyrmin lyrmax lmin (lmax + 1) indat);
       plt_subplots (("figsize", "(8, 6)") :: kw);
       np_min_call],
      Raise (ValueError
               [Lit "zero-size array to reduction operation minimum which has no identity"])))
  /\ ((0 <= lyrmin)%Z -> (0 <= lyrmax)%Z -> (0 <= lmin)%Z -> (0 <= lmax)%Z ->
      (lyrmax <= lyrmin)%Z \/ (lmax < lmin)%Z ->
      outcome (spectral_heterogeneity g indat title depths lmin lmax saveplot
                                      savepath lyrmin lyrmax kw)
      = Raise (ValueError
                 [Lit "zero-size array to reduction operation minimum which has no identity"])).
Proof.
  assert (Hrun :
    size (slice2 lyrmin lyrmax lmin (lmax + 1) indat) = 0%nat ->
    spectral_heterogeneity g indat title depths lmin lmax saveplot savepath
                           lyrmin lyrmax kw
    = ([np_log_call (slice2 lyrmin lyrmax lmin (lmax + 1) indat);
        plt_subplots (("figsize", "(8, 6)") :: kw);
        np_min_call],
       Raise (ValueError
                [Lit "zero-size array to reduction operation minimum which has no identity"]))).
  { intro Hs. rewrite (run_eta (spectral_heterogeneity _ _ _ _ _ _ _ _ _ _ _)).
    unfold spectral_heterogeneity, np_min, np_reduce, np_log.
    rewrite (size_zero_concat np_log1 _ Hs). reflexivity. }
  split; [exact Hrun|].
  intros H1 H2 H3 H4 Hcond. rewrite Hrun; [reflexivity|].
  apply slice2_empty; lia.
Qed.

Lemma empty_slice_raises_witness :
  outcome (spectral_heterogeneity installed (ramp 10 21) None
             [1; 2; 3; 4; 5; 6; 7; 8; 9; 10] 2 10 false None 5 5 [])
  = Raise (ValueError
             [Lit "zero-size array to reduction operation minimum which has no identity"]).
Proof.
  apply (proj2 (empty_slice_raises installed (ramp 10 21) None
                  [1; 2; 3; 4; 5; 6; 7; 8; 9; 10] 2 10 false None 5 5 []));
    lia.
Defined.

(** * Further properties of layer_grid *)

(** ** Grid lines *)

Lemma nth_np_arange lo hi d k :
  (k < steps lo hi d)%nat -> nth k (np_arange lo hi d) 0 = line lo d k.
Proof.
  intro Hk. rewrite np_arange_lines.
  rewrite (nth_indep _ 0 (line lo d 0)) by now rewrite length_map, length_seq.
  rewrite map_nth, seq_nth by assumption. reflexivity.
Qed.



(** ** The mesh and the nearest sample *)

Lemma zip2_meshgrid xs ys :
  zip2 (fst (np_meshgrid xs ys)) (snd (np_meshgrid xs ys))
  = map (fun y => map (fun x => (x, y)) xs) ys.
Proof.
  unfold zip2, np_meshgrid. simpl.
  induction ys as [|y ys IH]; [reflexivity|].
  simpl. f_equal; [|exact IH].
  clear. induction xs as [|x xs IH]; [reflexivity|].
  simpl. f_equal. exact IH.
Qed.

Lemma nearest_from_closest p best rest :
  exists s,
    In s (best :: rest)
    /\ nearest_from p best rest = snd s
    /\ forall s', In s' (best :: rest) -> dist2 p (fst s) <= dist2 p (fst s').
Proof.
  revert best. induction rest as [|c rest IH]; intro best.
  - exists best. split; [now left|]. split; [reflexivity|].
    intros s' [<-|[]]. apply Qle_refl.
  - simpl nearest_from. unfold Qlt_bool.
    destruct (Qle_bool (dist2 p (fst best)) (dist2 p (fst c))) eqn:E;
      simpl negb; cbv iota.
    + apply Qle_bool_iff in E.
      destruct (IH best) as [s [Hin [Hv Hmin]]].
      exists s. split; [|split; [exact Hv|]].
      * destruct Hin as [<-|Hin]; [now left|right; now right].
      * intros s' [<-|[<-|Hin']].
        -- apply Hmin. now left.
        -- eapply Qle_trans; [|exact E]. apply Hmin. now left.
        -- apply Hmin. now right.
    + assert (L : dist2 p (fst c) < dist2 p (fst best)).
      { apply Qnot_le_lt. intro H. apply Qle_bool_iff in H. congruence. }
      destruct (IH c) as [s [Hin [Hv Hmin]]].
      exists s. split; [|split; [exact Hv|]].
      * destruct Hin as [<-|Hin]; [right; now left|right; now right].
      * intros s' [<-|[<-|Hin']].
        -- eapply Qle_trans; [|apply Qlt_le_weak; exact L].
           apply Hmin. now left.
        -- apply Hmin. now left.
        -- apply Hmin. now right.
Qed.

Lemma nearest_closest samples p :
  samples <> [] ->
  exists s,
    In s samples /\ nearest samples p = Num (snd s)
    /\ forall s', In s' samples -> dist2 p (fst s) <= dist2 p (fst s').
Proof.
  destruct samples as [|b rest]; [congruence|]. intros _.
  destruct (nearest_from_closest p b rest) as [s [Hin [Hv Hmin]]].
  exists s. split; [exact Hin|]. split; [|exact Hmin].
  simpl. now rewrite Hv.
Qed.

Lemma get2_map2 {A B} (f : A -> B) (a : array2 A) i j :
  get2 (map (map f) a) i j = option_map f (get2 a i j).
Proof.
  unfold get2. rewrite nth_error_map.
  destruct (nth_error a i) as [r|]; simpl; [|reflexivity].
  apply nth_error_map.
Qed.

Lemma get2_mesh_points xs ys i j :
  (i < length ys)%nat -> (j < length xs)%nat ->
  get2 (map (fun y => map (fun x => (x, y)) xs) ys) i j
  = Some (nth j xs 0, nth i ys 0).
Proof.
  intros Hi Hj. unfold get2. rewrite nth_error_map.
  rewrite (nth_error_nth' ys 0 Hi). simpl.
  rewrite nth_error_map, (nth_error_nth' xs 0 Hj). reflexivity.
Qed.

Lemma layer_grid_nearest_image g lon lat radius values delta
    minlon maxlon minlat maxlat label coastlines kw :
  _CARTOPY_INSTALLED g = true ->
  minlon < maxlon -> minlat < maxlat ->
  0 < spacing [minlon; maxlon; minlat; maxlat] delta ->
  length lon = length lat -> length values = length lon ->
  exists ax,
    outcome (layer_grid g lon lat radius values delta
               [minlon; maxlon; minlat; maxlat] label "nearest" coastlines kw)
    = Ok ax
    /\ ax_image ax =
       np_flip0
         (map (map (nearest (combine (combine lon lat) values)))
            (map (fun y => map (fun x => (x, y))
                 (lon_lines [minlon; maxlon; minlat; maxlat] delta))
               (lat_lines [minlon; maxlon; minlat; maxlat] delta))).
Proof.
  intros Hg Hlon Hlat Hd Hxy Hv.
  rewrite valid_outcome by assumption. simpl String.eqb. cbv iota.
  unfold griddata_nearest, broadcast2.
  rewrite Hxy, Nat.eqb_refl.
  rewrite length_combine, Hv, Hxy, Nat.min_id, Nat.eqb_refl. simpl negb.
  cbv iota. rewrite zip2_meshgrid.
  eexists. split; reflexivity.
Qed.

Lemma samples_nonempty (lon lat values : list Q) :
  length lon = length lat -> length values = length lon -> lon <> [] ->
  combine (combine lon lat) values <> [].
Proof.
  intros Hxy Hv Hne E. apply (f_equal (@length _)) in E.
  rewrite !length_combine, Hv, <- Hxy, !Nat.min_id in E.
  destruct lon; [congruence|discriminate E].
Qed.



(** X2.  With method "mean", on a valid extent and spacing, a non-empty
    sample set and at least two grid lines per axis, layer_grid returns,
    and its grid has one row fewer than latitude lines and one column
    fewer than longitude lines. *)
Theorem mean_grid_shape g lon lat radius values delta
    minlon maxlon minlat maxlat label coastlines kw :
  let extent := [minlon; maxlon; minlat; maxlat] in
  _CARTOPY_INSTALLED g = true ->
  minlon < maxlon -> minlat < maxlat -> 0 < spacing extent delta ->
  length lon = length lat -> length values = length lon -> lon <> [] ->
  (2 <= length (lon_lines extent delta))%nat ->
  (2 <= length (lat_lines extent delta))%nat ->
  exists ax,
    outcome (layer_grid g lon lat radius values delta extent label "mean"
                        coastlines kw)
    = Ok ax
    /\ shape (ax_image ax)
       = ((length (lat_lines extent delta) - 1)%nat,
          (length (lon_lines extent delta) - 1)%nat).
Proof.
  intros extent Hg Hlon Hlat Hd Hxy Hv Hne H1 H2.
  unfold lon_lines, lat_lines in *. rewrite !np_arange_length in *.
  exact (layer_grid_mean_shape g lon lat radius values delta minlon maxlon
           minlat maxlat label coastlines kw Hg Hlon Hlat Hd Hxy Hv Hne H1 H2).
Qed.

Lemma mean_grid_shape_witness :
  exists ax,
    outcome (layer_grid installed [0; 10] [0; 10] 6370 [1; 2] (Some 50)
                        default_extent None "mean" true [])
    = Ok ax
    /\ shape (ax_image ax) = (3, 7)%nat.
Proof.
  apply (mean_grid_shape installed [0; 10] [0; 10] 6370 [1; 2] (Some 50)
           (-180) 180 (-90) 90 None true []);
    try reflexivity; try discriminate; vm_compute; lia.
Defined.

(** X3.  With method "nearest" the grid is oriented north at the top and
    holds sample values only: the cell in row [r] and column [c] is the
    value of a sample at least as close (in longitude/latitude, Euclidean)
    as every other sample to the point of longitude line [c] and latitude
    line [nlat - 1 - r]. *)
Theorem nearest_cell_is_closest_sample g lon lat radius values delta
    minlon maxlon minlat maxlat label coastlines kw :
  let extent := [minlon; maxlon; minlat; maxlat] in
  let samples := combine (combine lon lat) values in
  let nlat := length (lat_lines extent delta) in
  _CARTOPY_INSTALLED g = true ->
  minlon < maxlon -> minlat < maxlat -> 0 < spacing extent delta ->
  length lon = length lat -> length values = length lon -> lon <> [] ->
  exists ax,
    outcome (layer_grid g lon lat radius values delta extent label "nearest"
                        coastlines kw)
    = Ok ax
    /\ forall r c,
        (r < nlat)%nat -> (c < length (lon_lines extent delta))%nat ->
        exists s,
          get2 (ax_image ax) r c = Some (Num (snd s))
          /\ closest samples
               (line minlon (spacing extent delta) c,
                line minlat (spacing extent delta) (nlat - 1 - r))
               s.
Proof.
  intros extent samples nlat Hg Hlon Hlat Hd Hxy Hv Hne.
  destruct (layer_grid_nearest_image g lon lat radius values delta minlon
              maxlon minlat maxlat label coastlines kw Hg Hlon Hlat Hd Hxy Hv)
    as [ax [E I]].
  exists ax. split; [exact E|]. intros r c Hr Hc.
  fold extent in I. fold samples in I.
  set (p := (line minlon (spacing extent delta) c,
             line minlat (spacing extent delta) (nlat - 1 - r))).
  destruct (nearest_closest samples p
              (samples_nonempty lon lat values Hxy Hv Hne))
    as [s [Hin [Hval Hmin]]].
  exists s. split; [|split; [exact Hin|exact Hmin]].
  rewrite I, get2_flip by (rewrite !length_map; exact Hr).
  rewrite !length_map. fold nlat.
  rewrite get2_map2, get2_mesh_points; [|fold nlat; lia|exact Hc].
  simpl option_map. rewrite <- Hval. do 2 f_equal. unfold p.
  assert (En : nlat = steps minlat maxlat (spacing extent delta))
    by apply np_arange_length.
  assert (Hc' : (c < steps minlon maxlon (spacing extent delta))%nat).
  { unfold lon_lines in Hc. now rewrite np_arange_length in Hc. }
  f_equal.
  - now apply nth_np_arange.
  - replace (nlat - S r)%nat with (nlat - 1 - r)%nat by lia.
    apply nth_np_arange.
    change (nlat - 1 - r < steps minlat maxlat (spacing extent delta))%nat.
    lia.
Qed.

Lemma nearest_cell_is_closest_sample_witness :
  exists ax,
    outcome (layer_grid installed [0; 100] [50; -50] 6370 [1; 2] (Some 90)
                        default_extent None "nearest" true [])
    = Ok ax
    /\ exists s,
         get2 (ax_image ax) 0 3 = Some (Num (snd s))
         /\ closest [(0, 50, 1); (100, -50, 2)] (90, 0) s.
Proof.
  destruct (nearest_cell_is_closest_sample installed [0; 100] [50; -50] 6370
              [1; 2] (Some 90) (-180) 180 (-90) 90 None true [])
    as [ax [E H]]; try reflexivity; try discriminate.
  exists ax. split; [exact E|].
  apply (H 0%nat 3%nat); vm_compute; lia.
Defined.

(** ** The default spacing *)







(** ** Every run of layer_grid *)

Section ValidRun.
Variable g : globals.
Hypothesis Hinst : _CARTOPY_INSTALLED g = true.
Variables (lon lat values : list Q) (radius : Q).
Variables (minlon maxlon minlat maxlat : Q).
Variable delta : option Q.
Variables (label : option string) (coastlines : bool) (kw : kwargs).
Hypothesis Hlon : minlon < maxlon.
Hypothesis Hlat : minlat < maxlat.
Let extent := [minlon; maxlon; minlat; maxlat].
Hypothesis Hdelta : 0 < spacing extent delta.
Let d := spacing extent delta.
Let grid_lons := np_arange minlon maxlon d.
Let grid_lats := np_arange minlat maxlat d.

Lemma valid_trace method :
  trace (layer_grid g lon lat radius values delta extent label method
                    coastlines kw)
  = [plt_subplots (("projection", "EqualEarth") :: kw);
     np_arange_call minlon maxlon d;
     np_arange_call minlat maxlat d;
     np_meshgrid_call grid_lons grid_lats]
    ++ (if (method =? "nearest")%string then
          griddata_call
            :: match griddata_nearest lon lat values
                       (fst (np_meshgrid grid_lons grid_lats))
                       (snd (np_meshgrid grid_lons grid_lats)) with
               | Ok gr => rendering gr extent radius label coastlines
               | Raise _ => []
               end
        else if (method =? "mean")%string then
          binned_statistic_2d_call
            :: match binned_statistic_2d lon lat values grid_lons grid_lats with
               | Ok gr =>
                   np_transpose_call
                     :: rendering (np_transpose gr) extent radius label
                          coastlines
               | Raise _ => []
               end
        else []).
Proof.
  unfold layer_grid. rewrite Hinst.
  cbn [negb length Nat.eqb extent item nth].
  rewrite (Qle_bool_false _ _ Hlon), (Qle_bool_false _ _ Hlat).
  run.
  assert (E : match delta with
              | Some d0 =>
                  if Qle_bool d0 0
                  then raise (ValueError [Lit "delta must be more than 0"])
                  else ret d0
              | None => ret (py_max (maxlon - minlon) (maxlat - minlat) / 200)
              end = ret d).
  { subst d. unfold spacing in *. destruct delta as [d0|]; [|reflexivity].
    now rewrite (Qle_bool_false _ _ Hdelta). }
  rewrite E. run. fold grid_lons grid_lats.
  unfold np_meshgrid. run. unfold rendering.
  destruct (method =? "nearest")%string.
  - run. destruct griddata_nearest; run; [|reflexivity].
    destruct coastlines; reflexivity.
  - destruct (method =? "mean")%string; run; [|reflexivity].
    destruct binned_statistic_2d; run; [|reflexivity].
    destruct coastlines; reflexivity.
Qed.

End ValidRun.

Lemma call_cases (extent : list Q) (delta : option Q) :
  bad_extent extent \/ bad_delta delta
  \/ exists minlon maxlon minlat maxlat,
       extent = [minlon; maxlon; minlat; maxlat]
       /\ minlon < maxlon /\ minlat < maxlat /\ 0 < spacing extent delta.
Proof.
  destruct extent as [|a [|b [|c [|d [|x rest]]]]];
    try (left; left; simpl; lia).
  destruct (Qlt_le_dec a b) as [Hab|Hab]; [|left; right; left; exact Hab].
  destruct (Qlt_le_dec c d) as [Hcd|Hcd]; [|left; right; right; exact Hcd].
  destruct delta as [x|].
  - destruct (Qlt_le_dec 0 x) as [Hx|Hx].
    + right. right. exists a, b, c, d. repeat split; assumption.
    + right. left. exists x. split; [reflexivity|exact Hx].
  - right. right. exists a, b, c, d. repeat split; try assumption.
    now apply default_spacing_pos.
Qed.

Lemma rendering_split gr extent radius label coastlines :
  rendering gr extent radius label coastlines
  = [np_flip_call; ccrs_PlateCarree]
    ++ [ax_imshow (np_flip0 gr) extent;
        ax_set_title ("Radius " ++ str_of_Z (py_int radius) ++ " km")%string;
        ax_set_xlabel (fmt_opt label);
        colorbar_call (match label with Some s => s | None => ""%string end)]
    ++ (if coastlines then [ax_coastlines] else []).
Proof. reflexivity. Qed.

(** Every run either raises, having drawn nothing, or returns the axes
    after computation events followed by the rendering of its grid. *)
Lemma layer_grid_runs g lon lat radius values delta extent label method
    coastlines kw :
  (exists e,
     outcome (layer_grid g lon lat radius values delta extent label method
                         coastlines kw) = Raise e
     /\ forall ev,
          In ev (trace (layer_grid g lon lat radius values delta extent label
                                   method coastlines kw)) ->
          is_drawing ev = false)
  \/ (exists gr pre,
        outcome (layer_grid g lon lat radius values delta extent label method
                            coastlines kw)
        = Ok {| ax_image := np_flip0 gr;
                ax_extent := extent;
                ax_title := ("Radius " ++ str_of_Z (py_int radius) ++ " km")%string;
                ax_xlabel := fmt_opt label;
                cbar_label := match label with Some s => s | None => ""%string end;
                has_coastlines := coastlines |}
        /\ trace (layer_grid g lon lat radius values delta extent label method
                             coastlines kw)
           = pre ++ rendering gr extent radius label coastlines
        /\ forall ev, In ev pre -> is_drawing ev = false).
Proof.
  destruct (_CARTOPY_INSTALLED g) eqn:Hg.
  - destruct (call_cases extent delta)
      as [Hbad|[Hbad|[a [b [c [d [-> [Hab [Hcd Hd]]]]]]]]].
    + left.
      destruct (layer_grid_rejects g lon lat radius values delta extent label
                  method coastlines kw Hg (or_introl Hbad)) as [T [m O]].
      exists (ValueError m). split; [exact O|]. rewrite T.
      intros ev [<-|[]]. reflexivity.
    + left.
      destruct (layer_grid_rejects g lon lat radius values delta extent label
                  method coastlines kw Hg (or_intror Hbad)) as [T [m O]].
      exists (ValueError m). split; [exact O|]. rewrite T.
      intros ev [<-|[]]. reflexivity.
    + rewrite valid_outcome, valid_trace by assumption.
      destruct (method =? "nearest")%string.
      * destruct griddata_nearest as [gr|e].
        -- right. exists gr.
           exists [plt_subplots (("projection", "EqualEarth") :: kw);
                   np_arange_call a b (spacing [a; b; c; d] delta);
                   np_arange_call c d (spacing [a; b; c; d] delta);
                   np_meshgrid_call
                     (np_arange a b (spacing [a; b; c; d] delta))
                     (np_arange c d (spacing [a; b; c; d] delta));
                   griddata_call].
           split; [reflexivity|]. split; [reflexivity|].
           intros ev H. simpl in H.
           repeat (destruct H as [<-|H]; [reflexivity|]). destruct H.
        -- left. exists e. split; [reflexivity|].
           intros ev H. simpl in H.
           repeat (destruct H as [<-|H]; [reflexivity|]). destruct H.
      * destruct (method =? "mean")%string.
        -- destruct binned_statistic_2d as [gr|e].
           ++ right. exists (np_transpose gr).
              exists [plt_subplots (("projection", "EqualEarth") :: kw);
                      np_arange_call a b (spacing [a; b; c; d] delta);
                      np_arange_call c d (spacing [a; b; c; d] delta);
                      np_meshgrid_call
                        (np_arange a b (spacing [a; b; c; d] delta))
                        (np_arange c d (spacing [a; b; c; d] delta));
                      binned_statistic_2d_call; np_transpose_call].
              split; [reflexivity|]. split; [reflexivity|].
              intros ev H. simpl in H.
              repeat (destruct H as [<-|H]; [reflexivity|]). destruct H.
           ++ left. exists e. split; [reflexivity|].
              intros ev H. simpl in H.
              repeat (destruct H as [<-|H]; [reflexivity|]). destruct H.
        -- left. eexists. split; [reflexivity|].
           intros ev H. simpl in H.
           repeat (destruct H as [<-|H]; [reflexivity|]). destruct H.
  - left. unfold layer_grid. rewrite Hg. cbn [negb].
    destruct (_CARTOPY_NOT_INSTALLED_EXCEPTION g) as [e|];
      eexists; (split; [reflexivity|]);
      intros ev [<-|[]]; reflexivity.
Qed.



(** X7.  A call of layer_grid that returns has drawn, after events that
    draw nothing and in this order: the returned grid as an image over the
    extent it was given, the title, the x label, the colour bar, and the
    coastlines exactly when [coastlines] is set.  The x label is the
    f-string of [label], which reads "None" when no label is given, while
    the colour bar label is then empty. *)
Theorem returned_run_rendering g lon lat radius values delta extent label
    method coastlines kw ax :
  outcome (layer_grid g lon lat radius values delta extent label method
                      coastlines kw) = Ok ax ->
  (exists pre,
     trace (layer_grid g lon lat radius values delta extent label method
                       coastlines kw)
     = pre
       ++ [ax_imshow (ax_image ax) extent;
           ax_set_title (ax_title ax);
           ax_set_xlabel (ax_xlabel ax);
           colorbar_call (cbar_label ax)]
       ++ (if coastlines then [ax_coastlines] else [])
     /\ forall ev, In ev pre -> is_drawing ev = false)
  /\ ax_extent ax = extent
  /\ has_coastlines ax = coastlines
  /\ ax_xlabel ax = match label with Some s => s | None => "None"%string end
  /\ cbar_label ax = match label with Some s => s | None => ""%string end.
Proof.
  intro O.
  destruct (layer_grid_runs g lon lat radius values delta extent label method
              coastlines kw) as [[e [O' _]]|[gr [pre [O' [T Hpre]]]]].
  - rewrite O' in O. discriminate O.
  - rewrite O' in O. injection O as <-. simpl.
    split; [|repeat split].
    exists (pre ++ [np_flip_call; ccrs_PlateCarree]). split.
    + rewrite T, rendering_split, <- app_assoc. reflexivity.
    + intros ev H. apply in_app_or in H. destruct H as [H|H].
      * now apply Hpre.
      * simpl in H. destruct H as [<-|[<-|[]]]; reflexivity.
Qed.

Lemma returned_run_rendering_witness :
  exists pre,
    trace (layer_grid installed [0; 100] [50; -50] 6370 [1; 2] (Some 90)
                      default_extent None "nearest" false [])
    = pre
      ++ [ax_imshow [[Num 1; Num 1; Num 1; Num 2]; [Num 1; Num 1; Num 2; Num 2]]
                    default_extent;
          ax_set_title "Radius 6370 km";
          ax_set_xlabel "None";
          colorbar_call ""]
      ++ []
    /\ forall ev, In ev pre -> is_drawing ev = false.
Proof.
  apply (proj1 (returned_run_rendering installed [0; 100] [50; -50] 6370
                  [1; 2] (Some 90) default_extent None "nearest" false []
                  {| ax_image := [[Num 1; Num 1; Num 1; Num 2];
                                  [Num 1; Num 1; Num 2; Num 2]];
                     ax_extent := default_extent;
                     ax_title := "Radius 6370 km";
                     ax_xlabel := "None";
                     cbar_label := "";
                     has_coastlines := false |}
                  eq_refl)).
Defined.

(** X8.  With [coastlines] unset, no run of layer_grid calls
    [ax.coastlines], on any path. *)
Theorem coastlines_never_drawn_when_unset g lon lat radius values delta extent
    label method kw :
  ~ In ax_coastlines
      (trace (layer_grid g lon lat radius values delta extent label method
                         false kw)).
Proof.
  intro H.
  destruct (layer_grid_runs g lon lat radius values delta extent label method
              false kw) as [[e [_ Hno]]|[gr [pre [_ [T Hpre]]]]].
  - specialize (Hno _ H). discriminate Hno.
  - rewrite T in H. apply in_app_or in H. destruct H as [H|H].
    + specialize (Hpre _ H). discriminate Hpre.
    + simpl in H. repeat (destruct H as [H|H]; [discriminate H|]). exact H.
Qed.

(** X9.  For a module that loaded, a call of layer_grid writes to stderr
    exactly when the import of cartopy had failed. *)
Theorem stderr_iff_import_failed imp g lon lat radius values delta extent
    label method coastlines kw :
  load_module imp = Ok g ->
  ((exists s,
      In (stderr_write s)
         (trace (layer_grid g lon lat radius values delta extent label method
                            coastlines kw)))
   <-> imp <> Imported).
Proof.
  intro Hload. destruct imp as [|e].
  - injection Hload as <-. split; [|congruence].
    intros [s H]. exfalso.
    destruct (call_cases extent delta)
      as [Hbad|[Hbad|[a [b [c [d [-> [Hab [Hcd Hd]]]]]]]]].
    + destruct (layer_grid_rejects
                  {| _CARTOPY_INSTALLED := true;
                     _CARTOPY_NOT_INSTALLED_EXCEPTION := None |}
                  lon lat radius values delta extent label method coastlines
                  kw eq_refl (or_introl Hbad)) as [T _].
      rewrite T in H. destruct H as [H|[]]. discriminate H.
    + destruct (layer_grid_rejects
                  {| _CARTOPY_INSTALLED := true;
                     _CARTOPY_NOT_INSTALLED_EXCEPTION := None |}
                  lon lat radius values delta extent label method coastlines
                  kw eq_refl (or_intror Hbad)) as [T _].
      rewrite T in H. destruct H as [H|[]]. discriminate H.
    + rewrite valid_trace in H by (assumption || reflexivity).
      unfold rendering in H.
      destruct (method =? "nearest")%string;
        [destruct griddata_nearest
        |destruct (method =? "mean")%string;
           [destruct binned_statistic_2d|]];
        destruct coastlines; simpl in H;
        repeat (destruct H as [H|H]; [discriminate H|]); exact H.
  - split; [discriminate|]. intros _.
    destruct e as [m|m|m|m]; try discriminate Hload.
    injection Hload as <-.
    exists "layer_grid require cartopy to be installed". now left.
Qed.

Lemma stderr_iff_import_failed_witness :
  (exists s,
     In (stderr_write s)
        (trace (layer_grid (missing [Lit "No module named 'cartopy'"])
                  [0] [0] 6370 [1] None default_extent None "nearest" true
                  [])))
  <-> ImportFailed (ImportError [Lit "No module named 'cartopy'"]) <> Imported.
Proof.
  apply (stderr_iff_import_failed
           (ImportFailed (ImportError [Lit "No module named 'cartopy'"]))
           (missing [Lit "No module named 'cartopy'"])).
  reflexivity.
Defined.

(** ** Samples the "mean" grid leaves out *)






(** * Further properties of spectral_heterogeneity *)

Lemma size_rect {A} n (a : array2 A) :
  rect n a -> size a = (length a * n)%nat.
Proof.
  induction 1 as [|r a Hr _ IH]; [reflexivity|].
  simpl. rewrite Hr, IH. reflexivity.
Qed.

Lemma rect_slice2 {A} (r0 r1 c0 c1 : Z) n (a : array2 A) :
  (0 <= c0)%Z -> (0 <= c1)%Z -> rect n a ->
  rect (Nat.min (Z.to_nat c1) n - Nat.min (Z.to_nat c0) n)
       (slice2 r0 r1 c0 c1 a).
Proof.
  intros Hc0 Hc1 Hr. unfold slice2. apply rect_map_rows.
  intros r Hin. apply In_py_slice in Hin.
  unfold rect in Hr. rewrite Forall_forall in Hr.
  rewrite length_py_slice by assumption. now rewrite (Hr r Hin).
Qed.

Lemma length_slice2 {A} (r0 r1 c0 c1 : Z) (a : array2 A) :
  (0 <= r0)%Z -> (0 <= r1)%Z ->
  length (slice2 r0 r1 c0 c1 a)
  = (Nat.min (Z.to_nat r1) (length a) - Nat.min (Z.to_nat r0) (length a))%nat.
Proof.
  intros H0 H1. unfold slice2. rewrite length_map.
  now apply length_py_slice.
Qed.

Lemma size_pos_concat {A B} (f : A -> B) (a : array2 A) :
  size a <> 0%nat -> exists v vs, concat (map (map f) a) = v :: vs.
Proof.
  induction a as [|r a IH]; [simpl; congruence|].
  simpl. destruct r as [|x r]; simpl.
  - exact IH.
  - intros _. eexists. eexists. reflexivity.
Qed.


Lemma spectral_trace_nonempty g indat title depths lmin lmax saveplot savepath
    lyrmin lyrmax kw :
  size (slice2 lyrmin lyrmax lmin (lmax + 1) indat) <> 0%nat ->
  trace (spectral_heterogeneity g indat title depths lmin lmax saveplot
                                savepath lyrmin lyrmax kw)
  = [np_log_call (slice2 lyrmin lyrmax lmin (lmax + 1) indat);
     plt_subplots (("figsize", "(8, 6)") :: kw);
     np_min_call; np_max_call; np_linspace_call;
     ax_contourf (np_arange_Z lmin (lmax + 1))
                 (py_slice lyrmin lyrmax depths);
     ax_set_ylabel "Depth (km)"; ax_set_xlabel "L";
     ax_set_xlim (lmin - 1) (lmax + 1);
     ax_set_title (spectrum_title title);
     invert_yaxis; fig_colorbar; cbar_set_label "ln(Power)"]
    ++ (if saveplot then [plt_savefig (spectrum_path savepath title)] else []).
Proof.
  intro Hs. unfold spectral_heterogeneity, np_min, np_max, np_reduce, np_log.
  destruct (size_pos_concat np_log1 _ Hs) as [v [vs E]]. rewrite E.
  destruct saveplot; reflexivity.
Qed.


Lemma length_np_arange_Z a b : length (np_arange_Z a b) = Z.to_nat (b - a).
Proof. unfold np_arange_Z. now rewrite length_map, length_seq. Qed.

Lemma nth_np_arange_Z a b k :
  (k < Z.to_nat (b - a))%nat -> nth k (np_arange_Z a b) 0%Z = (a + Z.of_nat k)%Z.
Proof.
  intro Hk. unfold np_arange_Z.
  set (f := fun i : nat => (a + Z.of_nat i)%Z).
  rewrite (nth_indep _ 0%Z (f 0%nat)) by now rewrite length_map, length_seq.
  rewrite (map_nth f), seq_nth by assumption. reflexivity.
Qed.

Lemma nth_py_slice (a b : Z) (l : list Q) k :
  (0 <= a)%Z -> (0 <= b)%Z -> (k < length (py_slice a b l))%nat ->
  nth k (py_slice a b l) 0 = nth (Z.to_nat a + k) l 0.
Proof.
  intros Ha Hb Hk.
  assert (H := nth_error_py_slice a b l k Ha Hb).
  rewrite (nth_error_nth' _ 0 Hk) in H.
  rewrite length_py_slice in Hk by assumption.
  destruct (Z.ltb_spec (Z.of_nat k) (b - a)); [|lia].
  symmetry in H. symmetry. now apply nth_error_nth.
Qed.

(** X12.  For bounds inside the array (0 <= lyrmin < lyrmax <= rows,
    0 <= lmin <= lmax < columns) and one depth per row, the run reaches
    [contourf] with coordinates that fit the logged sub-array: the x
    coordinates are the degrees lmin, lmin + 1, ..., lmax, one per column,
    and the y coordinates are the depths of the layers lyrmin, ...,
    lyrmax - 1, one per row. *)
Theorem contourf_axes_fit_window g indat title depths lmin lmax saveplot
    savepath lyrmin lyrmax kw ncols :
  rect ncols indat -> length depths = length indat ->
  (0 <= lyrmin < lyrmax)%Z -> (lyrmax <= Z.of_nat (length indat))%Z ->
  (0 <= lmin <= lmax)%Z -> (lmax < Z.of_nat ncols)%Z ->
  exists sub xs ys pre post,
    trace (spectral_heterogeneity g indat title depths lmin lmax saveplot
                                  savepath lyrmin lyrmax kw)
    = np_log_call sub :: pre ++ ax_contourf xs ys :: post
    /\ length sub = Z.to_nat (lyrmax - lyrmin)
    /\ rect (Z.to_nat (lmax - lmin + 1)) sub
    /\ length xs = Z.to_nat (lmax - lmin + 1)
    /\ length ys = Z.to_nat (lyrmax - lyrmin)
    /\ (forall k, (k < length xs)%nat ->
          nth k xs 0%Z = (lmin + Z.of_nat k)%Z)
    /\ (forall k, (k < length ys)%nat ->
          nth k ys 0 = nth (Z.to_nat lyrmin + k) depths 0).
Proof.
  intros Hrect Hdep Hrow Hrow' Hcol Hcol'.
  set (sub := slice2 lyrmin lyrmax lmin (lmax + 1) indat).
  assert (Hlen : length sub = Z.to_nat (lyrmax - lyrmin)).
  { unfold sub. rewrite length_slice2 by lia. lia. }
  assert (Hsub : rect (Z.to_nat (lmax - lmin + 1)) sub).
  { replace (Z.to_nat (lmax - lmin + 1))
      with (Nat.min (Z.to_nat (lmax + 1)) ncols - Nat.min (Z.to_nat lmin) ncols)%nat
      by lia.
    apply rect_slice2; [lia|lia|exact Hrect]. }
  assert (Hs : size sub <> 0%nat).
  { rewrite (size_rect _ _ Hsub), Hlen. nia. }
  exists sub, (np_arange_Z lmin (lmax + 1)), (py_slice lyrmin lyrmax depths).
  exists [plt_subplots (("figsize", "(8, 6)") :: kw);
          np_min_call; np_max_call; np_linspace_call].
  eexists. split; [|split; [exact Hlen|split; [exact Hsub|]]].
  - rewrite spectral_trace_nonempty by exact Hs. reflexivity.
  - assert (Hys : length (py_slice lyrmin lyrmax depths)
                  = Z.to_nat (lyrmax - lyrmin)).
    { rewrite length_py_slice by lia. rewrite Hdep. lia. }
    rewrite length_np_arange_Z.
    split; [f_equal; lia|]. split; [exact Hys|]. split.
    + intros k Hk. apply nth_np_arange_Z. exact Hk.
    + intros k Hk. apply nth_py_slice; [lia|lia|exact Hk].
Qed.

Lemma contourf_axes_fit_window_witness :
  exists sub xs ys pre post,
    trace (spectral_heterogeneity installed (ramp 10 21) None
             [1; 2; 3; 4; 5; 6; 7; 8; 9; 10] 2 10 false None 1 5 [])
    = np_log_call sub :: pre ++ ax_contourf xs ys :: post
    /\ length sub = 4%nat
    /\ rect 9 sub
    /\ length xs = 9%nat
    /\ length ys = 4%nat.
Proof.
  destruct (contourf_axes_fit_window installed (ramp 10 21) None
              [1; 2; 3; 4; 5; 6; 7; 8; 9; 10] 2 10 false None 1 5 [] 21)
    as [sub [xs [ys [pre [post [T [L [R [Lx [Ly _]]]]]]]]]];
    try (simpl; lia); try reflexivity.
  - unfold rect. repeat constructor.
  - exists sub, xs, ys, pre, post.
    split; [exact T|]. split; [exact L|]. split; [exact R|].
    split; [exact Lx|exact Ly].
Defined.

(** X13.  An [lmax] at or beyond the number of columns is not rejected:
    the slice stops at the last column, but the x coordinates still run up
    to [lmax], so [contourf] is handed more x coordinates than the logged
    sub-array has columns. *)
Theorem lmax_beyond_columns_misfit g indat title depths lmin lmax saveplot
    savepath lyrmin lyrmax kw ncols :
  rect ncols indat ->
  (0 <= lyrmin < lyrmax)%Z -> (lyrmax <= Z.of_nat (length indat))%Z ->
  (0 <= lmin)%Z -> (lmin < Z.of_nat ncols)%Z -> (Z.of_nat ncols <= lmax)%Z ->
  exists sub xs ys pre post,
    trace (spectral_heterogeneity g indat title depths lmin lmax saveplot
                                  savepath lyrmin lyrmax kw)
    = np_log_call sub :: pre ++ ax_contourf xs ys :: post
    /\ sub <> []
    /\ rect (ncols - Z.to_nat lmin) sub
    /\ length xs = Z.to_nat (lmax - lmin + 1)
    /\ (ncols - Z.to_nat lmin < length xs)%nat.
Proof.
  intros Hrect Hrow Hrow' Hmin Hmin' Hmax.
  set (sub := slice2 lyrmin lyrmax lmin (lmax + 1) indat).
  assert (Hlen : length sub = Z.to_nat (lyrmax - lyrmin)).
  { unfold sub. rewrite length_slice2 by lia. lia. }
  assert (Hsub : rect (ncols - Z.to_nat lmin) sub).
  { replace (ncols - Z.to_nat lmin)%nat
      with (Nat.min (Z.to_nat (lmax + 1)) ncols - Nat.min (Z.to_nat lmin) ncols)%nat
      by lia.
    apply rect_slice2; [lia|lia|exact Hrect]. }
  assert (Hs : size sub <> 0%nat).
  { rewrite (size_rect _ _ Hsub), Hlen. nia. }
  exists sub, (np_arange_Z lmin (lmax + 1)), (py_slice lyrmin lyrmax depths).
  exists [plt_subplots (("figsize", "(8, 6)") :: kw);
          np_min_call; np_max_call; np_linspace_call].
  eexists. split; [|split; [|split; [exact Hsub|]]].
  - rewrite spectral_trace_nonempty by exact Hs. reflexivity.
  - intro E. rewrite E in Hlen. simpl in Hlen. lia.
  - rewrite length_np_arange_Z. split; [f_equal; lia|lia].
Qed.

Lemma lmax_beyond_columns_misfit_witness :
  exists sub xs ys pre post,
    trace (spectral_heterogeneity installed (ramp 10 21) None
             [1; 2; 3; 4; 5; 6; 7; 8; 9; 10] 18 25 false None 1 5 [])
    = np_log_call sub :: pre ++ ax_contourf xs ys :: post
    /\ sub <> []
    /\ rect (21 - 18) sub
    /\ length xs = 8%nat
    /\ (21 - 18 < length xs)%nat.
Proof.
  apply (lmax_beyond_columns_misfit installed (ramp 10 21) None
           [1; 2; 3; 4; 5; 6; 7; 8; 9; 10] 18 25 false None 1 5 [] 21);
    try (simpl; lia).
  unfold rect. repeat constructor.
Defined.

(** * The "mean" grid over geographic cells *)




